(** * Highload load generator ([scripts/locustfile.py])

    A shallow embedding of the two Locust user classes of the script,
    [HighloadUser] and [HighRPSUser], and the properties of the traffic
    they generate.

    Modelling choices.
    - Python numbers (the [int] literals and the finite [float]s the
      [random] module returns) are rationals [Q]; every finite float is
      one.  [round(x, 2)] is the correctly rounded nearest hundredth,
      ties to even.
    - The [random] module, the UTC clock and the target service are the
      environment.  [random] is an interface with the ranges its
      documentation promises; the clock and the service are streams of
      readings and of responses.
    - A task is a computation in a state-and-exception monad over the
      session: the user object ([self]) and the world around it.  What
      the task tells Locust (the request it issues, [response.success()],
      [response.failure(reason)]) is appended to a log. *)

From Stdlib Require Import ZArith QArith Qround Qabs String Ascii List Bool Lia.
From Stdlib Require Import DecimalString DecimalPos DecimalZ Lqa Sorted.
Import ListNotations.

Local Set Warnings "-register-all".
Local Open Scope string_scope.
Local Open Scope Q_scope.

(** ** Numbers *)

(** [min(a, b)] of Python: the first argument unless the second is
    strictly smaller. *)
Definition py_min (a b : Q) : Q :=
  match b ?= a with Lt => b | _ => a end.

(** [max(a, b)] of Python: the first argument unless the second is
    strictly greater. *)
Definition py_max (a b : Q) : Q :=
  match b ?= a with Gt => b | _ => a end.

(** Nearest integer, ties to the even neighbour. *)
Definition round_half_even (q : Q) : Z :=
  let n := Qfloor q in
  match (q - inject_Z n ?= 1 # 2)%Q with
  | Lt => n
  | Gt => (n + 1)%Z
  | Eq => if Z.even n then n else (n + 1)%Z
  end.

(** [round(x, 2)], kept in lowest terms. *)
Definition round2 (x : Q) : Q :=
  Qred (inject_Z (round_half_even (x * 100)) / 100).

(** [str(n)] for an [int]. *)
Definition str (n : Z) : string := NilZero.string_of_int (Z.to_int n).


(** ** Time: [datetime.utcnow().isoformat()] *)

Record datetime := mkDatetime {
  year : N; month : N; day : N;
  hour : N; minute : N; second : N;
  microsecond : N
}.

(** Lexicographic comparison of the fields, most significant first: the
    order of naive [datetime] objects. *)
Fixpoint lex_compare (a b : list N) : comparison :=
  match a, b with
  | [], [] => Eq
  | [], _ :: _ => Lt
  | _ :: _, [] => Gt
  | x :: a', y :: b' =>
      match N.compare x y with Eq => lex_compare a' b' | c => c end
  end.

Definition dt_fields (d : datetime) : list N :=
  [year d; month d; day d; hour d; minute d; second d; microsecond d].

Definition dt_leb (d1 d2 : datetime) : bool :=
  match lex_compare (dt_fields d1) (dt_fields d2) with Gt => false | _ => true end.

Definition dt_le (d1 d2 : datetime) : Prop := dt_leb d1 d2 = true.

Fixpoint zeros (k : nat) : string :=
  match k with O => EmptyString | S k' => String "0" (zeros k') end.

(** ["%0<w>d" % n] *)
Definition zfill (w : nat) (n : N) : string :=
  let s := NilEmpty.string_of_uint (N.to_uint n) in
  zeros (w - String.length s) ++ s.

(** [datetime.isoformat()] of a naive datetime: the fraction is printed
    only when the microsecond field is not zero. *)
Definition isoformat (d : datetime) : string :=
  zfill 4 (year d) ++ "-" ++ zfill 2 (month d) ++ "-" ++ zfill 2 (day d)
  ++ "T" ++ zfill 2 (hour d) ++ ":" ++ zfill 2 (minute d) ++ ":"
  ++ zfill 2 (second d)
  ++ match microsecond d with
     | N0 => ""
     | _ => "." ++ zfill 6 (microsecond d)
     end.

(** ** JSON values, Python dicts *)

Inductive json :=
| JNull
| JBool (b : bool)
| JNum (q : Q)
| JStr (s : string)
| JArr (items : list json)
| JObj (fields : list (string * json)).

(** [d.get(key)] on a dict kept as its items in insertion order. *)
Fixpoint dict_get (d : list (string * json)) (key : string) : option json :=
  match d with
  | [] => None
  | (k, v) :: d' => if String.eqb k key then Some v else dict_get d' key
  end.

(** Field of a JSON value; nothing unless the value is an object. *)
Definition field (key : string) (j : json) : option json :=
  match j with JObj d => dict_get d key | _ => None end.

(** ** The environment *)

(** The [random] module: a generator state and the draws the script
    uses, with the ranges the module documents. *)
Class RandomModule := {
  rstate : Type;
  rand_gauss : Q -> Q -> rstate -> Q * rstate;
  rand_random : rstate -> Q * rstate;
  rand_below : nat -> rstate -> nat * rstate;
  rand_uniform : Q -> Q -> rstate -> Q * rstate;
  rand_randint : Z -> Z -> rstate -> Z * rstate;
  rand_random_unit : forall s, 0 <= fst (rand_random s) /\ fst (rand_random s) < 1;
  rand_below_lt : forall n s, (0 < n)%nat -> (fst (rand_below n s) < n)%nat;
  rand_uniform_between : forall a b s,
      a <= b -> a <= fst (rand_uniform a b s) /\ fst (rand_uniform a b s) <= b;
  rand_randint_between : forall a b s,
      (a <= b)%Z -> (a <= fst (rand_randint a b s) <= b)%Z
}.

(** What the service answers: the status code and what
    [response.json()] gives, [None] when the body is not valid JSON. *)
Record Response := mkResponse {
  status_code : Z;
  body_json : option json
}.

(** What Locust sees of a task. *)
Inductive event :=
| Request (method path : string) (payload : option json) (catch_response : bool)
| Success
| Failure (reason : string).

Record World `{RandomModule} := mkWorld {
  rng : rstate;                 (* state of the random module *)
  clock : nat -> datetime;      (* successive readings of the UTC clock *)
  ticks : nat;                  (* readings taken so far *)
  service : nat -> Response;    (* the answer to the n-th request *)
  requests : nat;               (* requests issued so far *)
  log : list event              (* oldest first *)
}.

Record Session `{RandomModule} (U : Type) := mkSession {
  self : U;
  world : World
}.
Arguments mkSession {_ U}.
Arguments self {_ U}.
Arguments world {_ U}.

(** ** Tasks as computations *)

Inductive exn := JSONDecodeError | AttributeError.

Inductive result (A : Type) :=
| Ok (a : A)
| Raise (e : exn).
Arguments Ok {A}.
Arguments Raise {A}.

Definition M (S A : Type) : Type := S -> result A * S.

Definition ret {S A} (a : A) : M S A := fun s => (Ok a, s).

Definition bind {S A B} (m : M S A) (k : A -> M S B) : M S B :=
  fun s => match m s with
           | (Ok a, s') => k a s'
           | (Raise e, s') => (Raise e, s')
           end.

Definition raise {S A} (e : exn) : M S A := fun s => (Raise e, s).

Declare Scope task_scope.
Delimit Scope task_scope with task.
Notation "x <- c1 ;; c2" := (bind c1 (fun x => c2))
  (at level 100, c1 at next level, right associativity) : task_scope.
Notation "c1 ;; c2" := (bind c1 (fun _ => c2))
  (at level 100, right associativity) : task_scope.
Local Open Scope task_scope.

Section Primitives.
Context `{RandomModule} {U : Type}.

(** Run a draw of the random module on the world's generator. *)
Definition draw {A} (f : rstate -> A * rstate) : M (Session U) A :=
  fun s =>
    let w := world s in
    let (a, r) := f (rng w) in
    (Ok a, mkSession (self s)
             (mkWorld _ r (clock w) (ticks w) (service w) (requests w) (log w))).

(** [datetime.utcnow()] *)
Definition utcnow : M (Session U) datetime :=
  fun s =>
    let w := world s in
    (Ok (clock w (ticks w)),
     mkSession (self s)
       (mkWorld _ (rng w) (clock w) (S (ticks w)) (service w) (requests w) (log w))).

Definition emit (e : event) : M (Session U) unit :=
  fun s =>
    let w := world s in
    (Ok tt,
     mkSession (self s)
       (mkWorld _ (rng w) (clock w) (ticks w) (service w) (requests w) (log w ++ [e])%list)).

(** [self.client.request(...)]: the request goes out, the service's
    next answer comes back. *)
Definition client_request (method path : string) (payload : option json)
           (catch_response : bool) : M (Session U) Response :=
  fun s =>
    let w := world s in
    (Ok (service w (requests w)),
     mkSession (self s)
       (mkWorld _ (rng w) (clock w) (ticks w) (service w) (S (requests w))
          (log w ++ [Request method path payload catch_response])%list)).

Definition get_self : M (Session U) U := fun s => (Ok (self s), s).

Definition set_self (u : U) : M (Session U) unit :=
  fun s => (Ok tt, mkSession u (world s)).
End Primitives.

(** The calls of the script, under the names it uses. *)
Module random.
Section Draws.
Context `{RandomModule} {U : Type}.
Definition gauss (mu sigma : Q) : M (Session U) Q := draw (rand_gauss mu sigma).
Definition random : M (Session U) Q := draw rand_random.
(** [choice(seq)] is [seq[_randbelow(len(seq))]]. *)
Definition choice (seq : list Q) : M (Session U) Q :=
  i <- draw (rand_below (length seq)) ;; ret (nth i seq 0).
Definition uniform (a b : Q) : M (Session U) Q := draw (rand_uniform a b).
Definition randint (a b : Z) : M (Session U) Z := draw (rand_randint a b).
End Draws.
End random.

Module client.
Section Calls.
Context `{RandomModule} {U : Type}.
Definition post (path : string) (payload : json) (catch_response : bool)
  : M (Session U) Response :=
  client_request "POST" path (Some payload) catch_response.
Definition get (path : string) (catch_response : bool) : M (Session U) Response :=
  client_request "GET" path None catch_response.
End Calls.
End client.

Module response.
Section Marks.
Context `{RandomModule} {U : Type}.
Definition success : M (Session U) unit := emit Success.
Definition failure (reason : string) : M (Session U) unit := emit (Failure reason).
(** [response.json()] *)
Definition json (r : Response) : M (Session U) json :=
  match body_json r with
  | Some j => ret j
  | None => raise JSONDecodeError
  end.
End Marks.
End response.

(** [data.get(key)]: [data] has a [get] method only when it is a dict. *)
Definition data_get `{RandomModule} {U : Type} (data : json) (key : string)
  : M (Session U) (option json) :=
  match data with
  | JObj d => ret (dict_get d key)
  | _ => raise AttributeError
  end.

(** [v == "healthy"] for what [data.get] returned ([None] is Python's
    [None]). *)
Definition eq_str (v : option json) (s : string) : bool :=
  match v with
  | Some (JStr s') => String.eqb s' s
  | _ => false
  end.

(** ** class HighloadUser *)

Record HighloadUser := mkHighloadUser {
  device_id : string;
  metrics_count : Z
}.

Section HighloadUserTasks.
Context `{RandomModule}.
Local Abbreviation Task := (M (Session HighloadUser) unit).

(** [on_start]: the session begins with the two attributes set. *)
Definition on_start (w : World) : Session HighloadUser :=
  let (k, r) := rand_randint 1 1000 (rng w) in
  mkSession
    (mkHighloadUser ("device-" ++ str k) 0)
    (mkWorld _ r (clock w) (ticks w) (service w) (requests w) (log w)).

Definition send_metric : Task :=
  cpu <- random.gauss 50 15 ;;
  let cpu := py_max 0 (py_min 100 cpu) in
  rps <- random.gauss 500 100 ;;
  let rps := py_max 0 rps in
  u <- random.random ;;
  cr <- (if Qlt_le_dec u 0.05
         then cpu <- random.choice [95; 98; 99; 5; 2; 1] ;;
              rps <- random.choice [1500; 2000; 50; 10] ;;
              ret (cpu, rps)
         else ret (cpu, rps)) ;;
  let (cpu, rps) := cr : Q * Q in
  now <- utcnow ;;
  me <- get_self ;;
  let metric := JObj [("timestamp", JStr (isoformat now ++ "Z"));
                      ("cpu", JNum (round2 cpu));
                      ("rps", JNum (round2 rps));
                      ("device_id", JStr (device_id me))] in
  resp <- client.post "/metrics" metric true ;;
  if (status_code resp =? 200)%Z then
    me <- get_self ;;
    set_self (mkHighloadUser (device_id me) (metrics_count me + 1)) ;;
    response.success
  else
    response.failure ("Status code: " ++ str (status_code resp)).

(** The body of [for _ in range(10)], [n] rounds to go. *)
Fixpoint send_batch_loop (n : nat) (metrics : list json)
  : M (Session HighloadUser) (list json) :=
  match n with
  | O => ret metrics
  | S n' =>
      cpu <- random.gauss 50 15 ;;
      let cpu := py_max 0 (py_min 100 cpu) in
      rps <- random.gauss 500 100 ;;
      let rps := py_max 0 rps in
      now <- utcnow ;;
      me <- get_self ;;
      send_batch_loop n'
        (metrics ++ [JObj [("timestamp", JStr (isoformat now ++ "Z"));
                           ("cpu", JNum (round2 cpu));
                           ("rps", JNum (round2 rps));
                           ("device_id", JStr (device_id me))]])%list
  end.

Definition send_batch : Task :=
  metrics <- send_batch_loop 10 [] ;;
  resp <- client.post "/metrics/batch" (JObj [("metrics", JArr metrics)]) true ;;
  if (status_code resp =? 200)%Z then
    response.success
  else
    response.failure ("Status code: " ++ str (status_code resp)).

Definition get_analysis : Task :=
  resp <- client.get "/analyze" true ;;
  if (status_code resp =? 200)%Z then
    response.success
  else
    response.failure ("Status code: " ++ str (status_code resp)).

Definition health_check : Task :=
  resp <- client.get "/health" true ;;
  if (status_code resp =? 200)%Z then
    data <- response.json resp ;;
    status <- data_get data "status" ;;
    if eq_str status "healthy" then
      response.success
    else
      response.failure "Service unhealthy"
  else
    response.failure ("Status code: " ++ str (status_code resp)).
End HighloadUserTasks.

(** The [@task(weight)] decorations of [HighloadUser]. *)
Inductive task_name := SendMetric | SendBatch | GetAnalysis | HealthCheck.

Definition weight (t : task_name) : nat :=
  match t with
  | SendMetric => 10
  | SendBatch => 2
  | GetAnalysis => 1
  | HealthCheck => 1
  end.

Definition task_names : list task_name :=
  [SendMetric; SendBatch; GetAnalysis; HealthCheck].

(** The [tasks] attribute Locust builds from the decorations: every
    task once per unit of weight; a turn picks from it uniformly. *)
Definition tasks : list task_name :=
  flat_map (fun t => repeat t (weight t)) task_names.

Definition task_name_eqb (a b : task_name) : bool :=
  match a, b with
  | SendMetric, SendMetric | SendBatch, SendBatch
  | GetAnalysis, GetAnalysis | HealthCheck, HealthCheck => true
  | _, _ => false
  end.

Section HighloadUserLoop.
Context `{RandomModule}.

Definition perform (t : task_name) : M (Session HighloadUser) unit :=
  match t with
  | SendMetric => send_metric
  | SendBatch => send_batch
  | GetAnalysis => get_analysis
  | HealthCheck => health_check
  end.

(** The turns of one session, in the order Locust picked them.  An
    exception leaving a task either ends the session or, with Locust's
    [catch_exceptions] set, is logged by Locust and the next turn
    follows. *)
Fixpoint run (catch_exceptions : bool) (turns : list task_name)
  : M (Session HighloadUser) unit :=
  match turns with
  | [] => ret tt
  | t :: turns' =>
      fun s =>
        match perform t s with
        | (Ok _, s') => run catch_exceptions turns' s'
        | (Raise e, s') =>
            if catch_exceptions then run catch_exceptions turns' s'
            else (Raise e, s')
        end
  end.
End HighloadUserLoop.

(** ** class HighRPSUser *)

(** The class sets no attribute of its own. *)
Record HighRPSUser := mkHighRPSUser { }.

Section HighRPSUserTasks.
Context `{RandomModule}.

Definition rapid_metrics : M (Session HighRPSUser) unit :=
  now <- utcnow ;;
  cpu <- random.uniform 20 80 ;;
  rps <- random.uniform 200 800 ;;
  let metric := JObj [("timestamp", JStr (isoformat now ++ "Z"));
                      ("cpu", JNum (round2 cpu));
                      ("rps", JNum (round2 rps))] in
  _ <- client.post "/metrics" metric false ;;
  ret tt.
End HighRPSUserTasks.

(** ** Reading the log *)

(** The metric samples a request carries: the body itself on
    [/metrics], the items of its ["metrics"] field on [/metrics/batch]. *)
Definition samples_of (e : event) : list json :=
  match e with
  | Request _ path (Some payload) _ =>
      if String.eqb path "/metrics/batch" then
        match field "metrics" payload with
        | Some (JArr items) => items
        | _ => []
        end
      else if String.eqb path "/metrics" then [payload]
      else []
  | _ => []
  end.

Definition samples_sent (l : list event) : list json := flat_map samples_of l.

(** The range invariant of a metric sample. *)
Definition in_range (m : json) : bool :=
  match field "cpu" m, field "rps" m with
  | Some (JNum cpu), Some (JNum rps) =>
      Qle_bool 0 cpu && Qle_bool cpu 100 && Qle_bool 0 rps
  | _, _ => false
  end.

Definition carries_device (dev : string) (m : json) : bool :=
  match field "device_id" m with
  | Some (JStr d) => String.eqb d dev
  | _ => false
  end.

Definition timestamp_of (m : json) : option string :=
  match field "timestamp" m with
  | Some (JStr t) => Some t
  | _ => None
  end.

(** The events a computation adds to the log when run from [s]. *)
Definition events_of `{RandomModule} {U A : Type} (m : M (Session U) A)
           (s : Session U) : list event :=
  skipn (length (log (world s))) (log (world (snd (m s)))).

(** The same session in front of another service. *)
Definition with_service `{RandomModule} {U : Type} (sv : nat -> Response)
           (s : Session U) : Session U :=
  let w := world s in
  mkSession (self s)
    (mkWorld _ (rng w) (clock w) (ticks w) sv (requests w) (log w)).

(** The answer the service gives to the next request. *)
Definition next_response `{RandomModule} {U : Type} (s : Session U) : Response :=
  service (world s) (requests (world s)).

(** The outcome marks among the events. *)
Definition is_mark (e : event) : bool :=
  match e with
  | Success | Failure _ => true
  | Request _ _ _ _ => false
  end.

Definition marks (l : list event) : list event := filter is_mark l.

(** ** The synthesis steps as the specification words them *)

Section SpecSynthesis.
Context `{RandomModule} {U : Type}.

Definition clamp (lo hi x : Q) : Q := py_max lo (py_min hi x).

(** Steps 1 to 8 of the metric synthesizer; step 5, the anomaly
    override, is taken only with [anomalies] set. *)
Definition synthesis_steps (anomalies : bool) (dev : option string)
  : M (Session U) json :=
  cpu_raw <- random.gauss 50 15 ;;
  let cpu_percent := clamp 0 100 cpu_raw in
  rps_raw <- random.gauss 500 100 ;;
  let request_rate := py_max 0 rps_raw in
  cr <- (if anomalies then
           u <- random.random ;;
           if Qlt_le_dec u 0.05
           then c <- random.choice [95; 98; 99; 5; 2; 1] ;;
                r <- random.choice [1500; 2000; 50; 10] ;;
                ret (c, r)
           else ret (cpu_percent, request_rate)
         else ret (cpu_percent, request_rate)) ;;
  now <- utcnow ;;
  ret (JObj ([("timestamp", JStr (isoformat now ++ "Z"));
              ("cpu", JNum (round2 (fst cr)));
              ("rps", JNum (round2 (snd cr)))]
             ++ match dev with
                | Some d => [("device_id", JStr d)]
                | None => []
                end)%list).

Definition synthesize_one : option string -> M (Session U) json :=
  synthesis_steps true.

(** [count] times the same computation, results in order. *)
Fixpoint replicate {A} (count : nat) (m : M (Session U) A)
  : M (Session U) (list A) :=
  match count with
  | O => ret []
  | S c => x <- m ;; xs <- replicate c m ;; ret (x :: xs)
  end.

Definition synthesize_batch (count : nat) (dev : option string)
  : M (Session U) (list json) :=
  replicate count (synthesize_one dev).
End SpecSynthesis.

(** ** Vocabulary of the statements *)

(** The mark the three status-only classifications leave. *)
Definition status_mark (r : Response) : event :=
  if (status_code r =? 200)%Z then Success
  else Failure ("Status code: " ++ str (status_code r)).

(** What [health_check] leaves behind, case by case. *)
Definition health_outcome (r : Response) : result unit * list event :=
  if (status_code r =? 200)%Z then
    match body_json r with
    | None => (Raise JSONDecodeError, [])
    | Some (JObj d) =>
        (Ok tt,
         [if eq_str (dict_get d "status") "healthy"
          then Success else Failure "Service unhealthy"])
    | Some _ => (Raise AttributeError, [])
    end
  else (Ok tt, [Failure ("Status code: " ++ str (status_code r))]).

(** What [send_metric] does with the sample once it is built. *)
Definition deliver_metric `{RandomModule} (metric : json)
  : M (Session HighloadUser) unit :=
  resp <- client.post "/metrics" metric true ;;
  if (status_code resp =? 200)%Z then
    me <- get_self ;;
    set_self (mkHighloadUser (device_id me) (metrics_count me + 1)) ;;
    response.success
  else
    response.failure ("Status code: " ++ str (status_code resp)).

(** The stamps of [n] successive clock readings from reading [t] on. *)
Definition stamps (clk : nat -> datetime) (t n : nat) : list (option string) :=
  map (fun i => Some (isoformat (clk i) ++ "Z")) (seq t n).

(** How many samples a turn sends. *)
Definition samples_per_turn (t : task_name) : nat :=
  match t with
  | SendMetric => 1
  | SendBatch => 10
  | GetAnalysis | HealthCheck => 0
  end.

(** ** A scripted random module

    A generator whose state is the list of the raw numbers it will hand
    out (zero once the list is used up); each draw maps the next number
    into the range the call promises.  It makes the environment
    concrete for the examples. *)

Definition pop (t : list Q) : Q * list Q :=
  match t with
  | [] => (0, [])
  | q :: t' => (q, t')
  end.

Definition unit_clip (q : Q) : Q :=
  if Qle_bool 0 q && Qle_bool q 1 then q else 0.

Definition scripted_gauss (mu sigma : Q) (t : list Q) : Q * list Q :=
  let (z, t') := pop t in (mu + z * sigma, t').

Definition scripted_random (t : list Q) : Q * list Q :=
  let (q, t') := pop t in
  (if Qle_bool 0 q && negb (Qle_bool 1 q) then q else 0, t').

Definition scripted_below (n : nat) (t : list Q) : nat * list Q :=
  let (q, t') := pop t in (Z.to_nat (Qfloor q) mod n, t')%nat.

Definition scripted_uniform (a b : Q) (t : list Q) : Q * list Q :=
  let (q, t') := pop t in (a + (b - a) * unit_clip q, t').

Definition scripted_randint (a b : Z) (t : list Q) : Z * list Q :=
  let (q, t') := pop t in ((a + Qfloor q mod (b - a + 1))%Z, t').

Lemma unit_clip_range q : 0 <= unit_clip q /\ unit_clip q <= 1.
Proof.
  unfold unit_clip.
  destruct (Qle_bool 0 q) eqn:E0; destruct (Qle_bool q 1) eqn:E1; simpl;
    try (split; [apply Qle_refl | discriminate]).
  split; apply Qle_bool_iff; assumption.
Qed.

Lemma scripted_random_unit t :
  0 <= fst (scripted_random t) /\ fst (scripted_random t) < 1.
Proof.
  unfold scripted_random. destruct (pop t) as [q t']. simpl.
  destruct (Qle_bool 0 q) eqn:E0; destruct (Qle_bool 1 q) eqn:E1; simpl;
    try (split; [apply Qle_refl | reflexivity]).
  split.
  - apply Qle_bool_iff; assumption.
  - apply Qnot_le_lt. intro L. apply Qle_bool_iff in L. congruence.
Qed.

Lemma scripted_below_lt n t : (0 < n)%nat -> (fst (scripted_below n t) < n)%nat.
Proof.
  intro Hn. unfold scripted_below. destruct (pop t) as [q t']. simpl.
  apply Nat.mod_upper_bound. lia.
Qed.

Lemma scripted_uniform_between a b t :
  a <= b ->
  a <= fst (scripted_uniform a b t) /\ fst (scripted_uniform a b t) <= b.
Proof.
  intro Hab. unfold scripted_uniform. destruct (pop t) as [q t']. simpl.
  destruct (unit_clip_range q) as [L U].
  split; nra.
Qed.

Lemma scripted_randint_between a b t :
  (a <= b)%Z -> (a <= fst (scripted_randint a b t) <= b)%Z.
Proof.
  intro Hab. unfold scripted_randint. destruct (pop t) as [q t']. simpl.
  pose proof (Z.mod_pos_bound (Qfloor q) (b - a + 1)) as B. lia.
Qed.

Definition scripted : RandomModule := {|
  rstate := list Q;
  rand_gauss := scripted_gauss;
  rand_random := scripted_random;
  rand_below := scripted_below;
  rand_uniform := scripted_uniform;
  rand_randint := scripted_randint;
  rand_random_unit := scripted_random_unit;
  rand_below_lt := scripted_below_lt;
  rand_uniform_between := scripted_uniform_between;
  rand_randint_between := scripted_randint_between
|}.

(** A clock that starts at 2024-01-01T00:00:00 and advances by 250 ms a
    reading. *)
Definition quarter_clock (n : nat) : datetime :=
  mkDatetime 2024 1 1 0 0 (N.of_nat n / 4) ((N.of_nat n mod 4) * 250000).

(** A service that answers every request with the same response. *)
Definition always (r : Response) : nat -> Response := fun _ => r.

Definition scripted_world (tape : list Q) (answers : nat -> Response)
  : @World scripted :=
  @mkWorld scripted tape quarter_clock 0%nat answers 0%nat [].

(** A started session in the scripted world. *)
Definition scripted_session (tape : list Q) (answers : nat -> Response)
  : @Session scripted HighloadUser :=
  mkSession (mkHighloadUser "device-7" 0) (scripted_world tape answers).

Definition healthy_body : json := JObj [("status", JStr "healthy")].
Definition degraded_body : json := JObj [("status", JStr "degraded")].
Definition statusless_body : json := JObj [("uptime", JNum 12)].

(** ** The event handlers of the script *)

(** [s * n] on a string. *)
Fixpoint str_mul (s : string) (n : nat) : string :=
  match n with
  | O => ""
  | S n' => s ++ str_mul s n'
  end.

(** [print(line)]: the state is the lines printed so far. *)
Definition print (line : string) : M (list string) unit :=
  fun out => (Ok tt, (out ++ [line])%list).

Definition on_test_start {E : Type} (environment : E) : M (list string) unit :=
  print (str_mul "=" 60) ;;
  print "Highload Service Load Test Started" ;;
  print "Target: 1000+ RPS, Latency < 50ms" ;;
  print (str_mul "=" 60).

Definition on_test_stop {E : Type} (environment : E) : M (list string) unit :=
  print (str_mul "=" 60) ;;
  print "Load Test Completed" ;;
  print (str_mul "=" 60).

(** What Locust reports of one finished request. *)
Record request_report := mkReport {
  request_type : string;
  name : string;
  response_time : Q;            (* milliseconds *)
  response_length : Z;
  exception : option string
}.

(** The body of the [if] is [pass]. *)
Definition on_request (r : request_report) : M (list string) unit :=
  if Qlt_le_dec 50 (response_time r) then ret tt else ret tt.

(** The handlers over a whole test: start, one call per finished
    request, stop. *)
Fixpoint on_requests (reports : list request_report) : M (list string) unit :=
  match reports with
  | [] => ret tt
  | r :: reports' => on_request r ;; on_requests reports'
  end.

Definition test_handlers {E : Type} (environment : E)
           (reports : list request_report) : M (list string) unit :=
  on_test_start environment ;; on_requests reports ;; on_test_stop environment.

(** ** More vocabulary *)

Section Draws.
Context `{RandomModule} {U : Type}.

(** The first three draws of [send_metric] from a session. *)
Definition cpu_draw (s : Session U) : Q * rstate :=
  rand_gauss 50 15 (rng (world s)).

Definition rps_draw (s : Session U) : Q * rstate :=
  rand_gauss 500 100 (snd (cpu_draw s)).

Definition anomaly_roll (s : Session U) : Q * rstate :=
  rand_random (snd (rps_draw s)).
End Draws.

Definition is_request (e : event) : bool :=
  match e with
  | Request _ _ _ _ => true
  | Success | Failure _ => false
  end.

(** The requests to [/metrics] that are followed at once by a success
    mark. *)
Fixpoint delivered (l : list event) : Z :=
  match l with
  | [] => 0
  | e :: l' =>
      ((match e, l' with
        | Request _ path _ _, Success :: _ =>
            if String.eqb path "/metrics" then 1 else 0
        | _, _ => 0
        end) + delivered l')%Z
  end.

(** The keys of a JSON object, in order. *)
Definition keys (j : json) : list string :=
  match j with
  | JObj d => map fst d
  | _ => []
  end.

(** No success mark at the head: the events of a turn begin with its
    request. *)
Definition starts_clean (l : list event) : Prop :=
  match l with
  | Success :: _ => False
  | _ => True
  end.

(** The fields of a sample of [HighloadUser]. *)
Definition sample_keys : list string := ["timestamp"; "cpu"; "rps"; "device_id"].

(** A sample as [rapid_metrics] builds it: three fields, [cpu] within
    [20, 80], [rps] within [200, 800]. *)
Definition rapid_sample (m : json) : bool :=
  match m with
  | JObj [("timestamp", JStr _); ("cpu", JNum cpu); ("rps", JNum rps)] =>
      Qle_bool 20 cpu && Qle_bool cpu 80 && Qle_bool 200 rps && Qle_bool rps 800
  | _ => false
  end.

(** A request sent without [catch_response]. *)
Definition fire_and_forget (e : event) : bool :=
  match e with
  | Request "POST" "/metrics" (Some _) false => true
  | _ => false
  end.

(** Decimal digits. *)
Definition is_digit (c : ascii) : bool :=
  existsb (Ascii.eqb c) ["0"; "1"; "2"; "3"; "4"; "5"; "6"; "7"; "8"; "9"]%char.

Fixpoint all_digits (s : string) : bool :=
  match s with
  | EmptyString => true
  | String c s' => is_digit c && all_digits s'
  end.

(** The number a string of digits writes, leading zeros allowed. *)
Definition field_value (s : string) : option N :=
  option_map N.of_uint (NilEmpty.uint_of_string s).

(** * Properties *)

(** ** Clamping and rounding *)

Lemma py_min_le_l a b : py_min a b <= a.
Proof.
  unfold py_min. destruct (b ?= a) eqn:E; try apply Qle_refl.
  apply Qlt_le_weak. exact E.
Qed.

Lemma py_max_ge_l a b : a <= py_max a b.
Proof.
  unfold py_max. destruct (b ?= a) eqn:E; try apply Qle_refl.
  apply Qlt_le_weak. apply Qgt_alt. exact E.
Qed.

Lemma py_max_lub a b c : a <= c -> b <= c -> py_max a b <= c.
Proof. intros Ha Hb. unfold py_max. destruct (b ?= a); assumption. Qed.

Lemma clamp_range lo hi x : lo <= hi -> lo <= clamp lo hi x /\ clamp lo hi x <= hi.
Proof.
  intro H. unfold clamp. split.
  - apply py_max_ge_l.
  - apply py_max_lub; [assumption | apply py_min_le_l].
Qed.

Lemma round_half_even_ge (a : Z) (q : Q) :
  inject_Z a <= q -> (a <= round_half_even q)%Z.
Proof.
  intro H. apply Qfloor_resp_le in H. rewrite Qfloor_Z in H.
  unfold round_half_even.
  destruct (q - inject_Z (Qfloor q) ?= 1 # 2); try destruct (Z.even (Qfloor q)); lia.
Qed.

Lemma round_half_even_le (b : Z) (q : Q) :
  q <= inject_Z b -> (round_half_even q <= b)%Z.
Proof.
  intro H. pose proof (Qfloor_resp_le _ _ H) as F. rewrite Qfloor_Z in F.
  unfold round_half_even.
  destruct (Z.eq_dec (Qfloor q) b) as [E | N].
  - assert (L : q - inject_Z (Qfloor q) < 1 # 2).
    { rewrite E. lra. }
    rewrite (proj1 (Qlt_alt _ _) L). lia.
  - destruct (q - inject_Z (Qfloor q) ?= 1 # 2); try destruct (Z.even (Qfloor q)); lia.
Qed.

(** Rounding to two places keeps a value on its side of an integer
    bound. *)
Lemma round2_ge (a : Z) (x : Q) : inject_Z a <= x -> inject_Z a <= round2 x.
Proof.
  intro Ha. unfold round2.
  assert (La : (a * 100 <= round_half_even (x * 100))%Z).
  { apply round_half_even_ge. rewrite inject_Z_mult.
    apply Qmult_le_compat_r; [exact Ha | discriminate]. }
  rewrite Zle_Qle, inject_Z_mult in La.
  rewrite Qred_correct. apply Qle_shift_div_l; [reflexivity | exact La].
Qed.

Lemma round2_le (b : Z) (x : Q) : x <= inject_Z b -> round2 x <= inject_Z b.
Proof.
  intro Hb. unfold round2.
  assert (Lb : (round_half_even (x * 100) <= b * 100)%Z).
  { apply round_half_even_le. rewrite inject_Z_mult.
    apply Qmult_le_compat_r; [exact Hb | discriminate]. }
  rewrite Zle_Qle, inject_Z_mult in Lb.
  rewrite Qred_correct. apply Qle_shift_div_r; [reflexivity | exact Lb].
Qed.

(** A sample built from values in range is in range, whatever else it
    carries after the three leading fields. *)
Lemma built_sample_in_range (ts : string) (cpu rps : Q)
      (more : list (string * json)) :
  0 <= cpu -> cpu <= 100 -> 0 <= rps ->
  in_range (JObj (("timestamp", JStr ts) :: ("cpu", JNum (round2 cpu))
                  :: ("rps", JNum (round2 rps)) :: more)) = true.
Proof.
  intros C0 C1 R0. unfold in_range. simpl.
  rewrite !andb_true_iff, !Qle_bool_iff.
  repeat split.
  - apply (round2_ge 0). exact C0.
  - apply (round2_le 100). exact C1.
  - apply (round2_ge 0). exact R0.
Qed.

Lemma skipn_length_app {A} (l new : list A) : skipn (length l) (l ++ new) = new.
Proof. induction l as [| x l IH]; simpl; auto. Qed.

(** ** Running the synthesis *)

Ltac destruct_session s :=
  let u := fresh "u" in
  let r := fresh "r" in
  let c := fresh "c" in
  let t := fresh "t" in
  let sv := fresh "sv" in
  let n := fresh "n" in
  let lg := fresh "lg" in
  destruct s as [u [r c t sv n lg]].

Ltac unfold_calls :=
  unfold random.gauss, random.random, random.choice, random.uniform,
    random.randint, client.post, client.get, response.success,
    response.failure, response.json, data_get, client_request, emit,
    utcnow, draw, get_self, set_self, bind, ret, raise.

Lemma anomaly_cpu_range i :
  (i < 6)%nat ->
  0 <= nth i [95; 98; 99; 5; 2; 1] 0 /\ nth i [95; 98; 99; 5; 2; 1] 0 <= 100.
Proof.
  intro Hi.
  do 6 (destruct i as [| i]; [simpl; split; discriminate |]). lia.
Qed.

Lemma anomaly_rps_range i :
  (i < 4)%nat -> 0 <= nth i [1500; 2000; 50; 10] 0.
Proof.
  intro Hi.
  do 4 (destruct i as [| i]; [simpl; discriminate |]). lia.
Qed.

Section SynthesisRuns.
Context `{RandomModule} {U : Type}.

(** One synthesis reads the clock once, leaves the user object, the
    service and the log alone, and yields a sample whose two numbers
    are the roundings of values in range. *)
Lemma synthesis_steps_run (anomalies : bool) (dev : option string)
      (s : Session U) :
  exists cpu rps r',
    synthesis_steps anomalies dev s =
      (Ok (JObj ([("timestamp",
                   JStr (isoformat (clock (world s) (ticks (world s))) ++ "Z"));
                  ("cpu", JNum (round2 cpu));
                  ("rps", JNum (round2 rps))]
                 ++ match dev with
                    | Some d => [("device_id", JStr d)]
                    | None => []
                    end)%list),
       mkSession (self s)
         (mkWorld _ r' (clock (world s)) (S (ticks (world s)))
            (service (world s)) (requests (world s)) (log (world s))))
    /\ 0 <= cpu /\ cpu <= 100 /\ 0 <= rps.
Proof.
  destruct_session s. unfold synthesis_steps. unfold_calls. simpl.
  destruct (rand_gauss 50 15 r) as [g1 r1]. simpl.
  destruct (rand_gauss 500 100 r1) as [g2 r2]. simpl.
  pose proof (clamp_range 0 100 g1 ltac:(discriminate)) as [C0 C1].
  pose proof (py_max_ge_l 0 g2) as R0.
  destruct anomalies; simpl.
  - destruct (rand_random r2) as [u0 r3]. simpl.
    destruct (Qlt_le_dec u0 0.05); simpl.
    + pose proof (rand_below_lt 6 r3 ltac:(lia)) as B6.
      destruct (rand_below 6 r3) as [i r4]. simpl.
      pose proof (rand_below_lt 4 r4 ltac:(lia)) as B4.
      destruct (rand_below 4 r4) as [j r5]. simpl in *.
      destruct (anomaly_cpu_range i B6) as [A0 A1].
      pose proof (anomaly_rps_range j B4) as A2.
      eexists _, _, _. split; [reflexivity | auto].
    + simpl. eexists _, _, _. split; [reflexivity | auto].
  - simpl. eexists _, _, _. split; [reflexivity | auto].
Qed.
End SynthesisRuns.

Ltac next_draw :=
  simpl;
  match goal with
  | |- context [rand_gauss ?a ?b ?r] =>
      is_var r; destruct (rand_gauss a b r) as [? ?]
  | |- context [rand_random ?r] =>
      is_var r; destruct (rand_random r) as [? ?]
  | |- context [rand_below ?n ?r] =>
      is_var r; destruct (rand_below n r) as [? ?]
  | |- context [rand_uniform ?a ?b ?r] =>
      is_var r; destruct (rand_uniform a b r) as [? ?]
  | |- context [rand_randint ?a ?b ?r] =>
      is_var r; destruct (rand_randint a b r) as [? ?]
  | |- context [Qlt_le_dec ?u ?v] => destruct (Qlt_le_dec u v)
  end.

Section HighloadUserRuns.
Context `{RandomModule}.

(** The sample [send_metric] sends is the one the eight steps build. *)
Lemma send_metric_synthesis (s : Session HighloadUser) :
  send_metric s =
    (metric <- synthesize_one (Some (device_id (self s))) ;;
     deliver_metric metric) s.
Proof.
  destruct_session s.
  unfold send_metric, deliver_metric, synthesize_one, synthesis_steps, clamp.
  unfold_calls. repeat next_draw; reflexivity.
Qed.

(** One round of the loop of [send_batch] is one synthesis without
    the anomaly override. *)
Lemma send_batch_loop_round (n : nat) (metrics : list json)
      (s : Session HighloadUser) :
  send_batch_loop (S n) metrics s =
    (sample <- synthesis_steps false (Some (device_id (self s))) ;;
     send_batch_loop n (metrics ++ [sample])%list) s.
Proof.
  destruct_session s. simpl send_batch_loop.
  unfold synthesis_steps, clamp. unfold_calls.
  repeat next_draw; reflexivity.
Qed.

(** The loop of [send_batch] repeats the steps without the anomaly
    override, appending each sample. *)
Lemma send_batch_loop_synthesis (n : nat) :
  forall (metrics : list json) (s : Session HighloadUser),
    send_batch_loop n metrics s =
      (samples <- replicate n (synthesis_steps false (Some (device_id (self s)))) ;;
       ret (metrics ++ samples)%list) s.
Proof.
  induction n as [| n IH]; intros metrics s.
  - simpl. unfold bind, ret. rewrite app_nil_r. reflexivity.
  - rewrite send_batch_loop_round. simpl replicate. unfold bind, ret.
    destruct (synthesis_steps_run false (Some (device_id (self s))) s)
      as (cpu & rps & r' & E & _).
    rewrite !E. rewrite IH. unfold bind, ret. simpl.
    match goal with
    | |- context [replicate n ?m ?s] => destruct (replicate n m s) as [[l | e] s']
    end; simpl; [rewrite <- app_assoc |]; reflexivity.
Qed.
End HighloadUserRuns.

Section BatchSynthesis.
Context `{RandomModule} {U : Type}.

(** [n] syntheses in a row: [n] samples, all in range, stamped with
    the next [n] clock readings in order, all with the given device
    identifier; nothing but the generator and the clock has moved. *)
Lemma replicate_synthesis_run (anomalies : bool) (dev : option string) (n : nat) :
  forall s : Session U,
  exists samples r',
    replicate n (synthesis_steps anomalies dev) s =
      (Ok samples,
       mkSession (self s)
         (mkWorld _ r' (clock (world s)) (n + ticks (world s))
            (service (world s)) (requests (world s)) (log (world s))))
    /\ length samples = n
    /\ forallb in_range samples = true
    /\ map timestamp_of samples = stamps (clock (world s)) (ticks (world s)) n
    /\ map (field "device_id") samples = repeat (option_map JStr dev) n.
Proof.
  induction n as [| n IH]; intro s.
  - destruct_session s. exists [], r. simpl. unfold ret. auto.
  - simpl replicate. unfold bind, ret.
    destruct (synthesis_steps_run anomalies dev s)
      as (cpu & rps & r1 & E & C0 & C1 & R0).
    rewrite E.
    match goal with
    | |- context [replicate n _ ?s1] =>
        destruct (IH s1) as (l & r2 & E2 & Hlen & Hrange & Hts & Hdev)
    end.
    rewrite E2. simpl in *.
    eexists _, _. split; [rewrite Nat.add_succ_r; reflexivity |].
    split; [simpl; congruence |].
    split; [simpl; rewrite Hrange, andb_true_r;
            apply built_sample_in_range; assumption |].
    split.
    + unfold stamps in *. simpl. rewrite Hts. reflexivity.
    + simpl. rewrite Hdev. destruct dev; reflexivity.
Qed.
End BatchSynthesis.

Section TaskRuns.
Context `{RandomModule}.

Lemma send_metric_run (s : Session HighloadUser) :
  exists sample r',
    send_metric s =
      (Ok tt,
       mkSession
         (if (status_code (next_response s) =? 200)%Z
          then mkHighloadUser (device_id (self s)) (metrics_count (self s) + 1)
          else self s)
         (mkWorld _ r' (clock (world s)) (S (ticks (world s)))
            (service (world s)) (S (requests (world s)))
            (log (world s)
             ++ [Request "POST" "/metrics" (Some sample) true;
                 status_mark (next_response s)])%list))
    /\ fst (synthesize_one (Some (device_id (self s))) s) = Ok sample
    /\ in_range sample = true
    /\ field "device_id" sample = Some (JStr (device_id (self s))).
Proof.
  rewrite send_metric_synthesis. unfold bind, synthesize_one.
  destruct (synthesis_steps_run true (Some (device_id (self s))) s)
    as (cpu & rps & r1 & E & C0 & C1 & R0).
  rewrite E. unfold deliver_metric, status_mark, next_response.
  unfold_calls. simpl.
  eexists _, r1. split.
  - destruct (status_code (service (world s) (requests (world s))) =? 200)%Z;
      simpl; rewrite <- app_assoc; reflexivity.
  - split; [reflexivity |].
    split; [apply built_sample_in_range; assumption | reflexivity].
Qed.

Lemma send_batch_run (s : Session HighloadUser) :
  exists samples r',
    send_batch s =
      (Ok tt,
       mkSession (self s)
         (mkWorld _ r' (clock (world s)) (10 + ticks (world s))
            (service (world s)) (S (requests (world s)))
            (log (world s)
             ++ [Request "POST" "/metrics/batch"
                   (Some (JObj [("metrics", JArr samples)])) true;
                 status_mark (next_response s)])%list))
    /\ fst (replicate 10 (synthesis_steps false (Some (device_id (self s)))) s)
       = Ok samples
    /\ length samples = 10%nat
    /\ forallb in_range samples = true
    /\ map timestamp_of samples = stamps (clock (world s)) (ticks (world s)) 10
    /\ map (field "device_id") samples
       = repeat (Some (JStr (device_id (self s)))) 10.
Proof.
  unfold send_batch. unfold bind at 1. rewrite send_batch_loop_synthesis.
  unfold bind at 1.
  destruct (replicate_synthesis_run false (Some (device_id (self s))) 10 s)
    as (l & r1 & E & Hlen & Hrange & Hts & Hdev).
  rewrite E. unfold status_mark, next_response. unfold_calls. simpl.
  exists l, r1. split.
  - destruct (status_code (service (world s) (requests (world s))) =? 200)%Z;
      simpl; rewrite <- app_assoc; reflexivity.
  - auto.
Qed.

Lemma get_analysis_run (s : Session HighloadUser) :
  get_analysis s =
    (Ok tt,
     mkSession (self s)
       (mkWorld _ (rng (world s)) (clock (world s)) (ticks (world s))
          (service (world s)) (S (requests (world s)))
          (log (world s)
           ++ [Request "GET" "/analyze" None true;
               status_mark (next_response s)])%list)).
Proof.
  unfold get_analysis, status_mark, next_response. unfold_calls. simpl.
  destruct (status_code (service (world s) (requests (world s))) =? 200)%Z;
    simpl; rewrite <- app_assoc; reflexivity.
Qed.

Lemma health_check_run (s : Session HighloadUser) :
  health_check s =
    (fst (health_outcome (next_response s)),
     mkSession (self s)
       (mkWorld _ (rng (world s)) (clock (world s)) (ticks (world s))
          (service (world s)) (S (requests (world s)))
          (log (world s)
           ++ Request "GET" "/health" None true
              :: snd (health_outcome (next_response s)))%list)).
Proof.
  unfold health_check, health_outcome, next_response. unfold_calls. simpl.
  destruct (service (world s) (requests (world s))) as [code body]. simpl.
  destruct (code =? 200)%Z; simpl.
  - destruct body as [[| | | | | d] |]; simpl; try reflexivity.
    destruct (eq_str (dict_get d "status") "healthy"); simpl;
      rewrite <- app_assoc; reflexivity.
  - rewrite <- app_assoc; reflexivity.
Qed.
End TaskRuns.

Section Classification.
Context `{RandomModule}.

Lemma events_of_health_check (s : Session HighloadUser) :
  events_of health_check s =
    Request "GET" "/health" None true :: snd (health_outcome (next_response s)).
Proof.
  unfold events_of. rewrite health_check_run. simpl. apply skipn_length_app.
Qed.

Lemma eq_str_true (v : option json) (k : string) :
  eq_str v k = true <-> v = Some (JStr k).
Proof.
  destruct v as [[| | | k' | |] |]; simpl; split; intro E; try discriminate;
    try (inversion E; subst; apply String.eqb_refl).
  apply String.eqb_eq in E. subst. reflexivity.
Qed.

(** C2. The health check is marked successful exactly when the status
    code is 200 and the decoded body is an object whose ["status"] is
    ["healthy"]; a 200 response whose body has any other ["status"]
    value is marked failed with the reason "Service unhealthy"; a
    response with another status code is marked failed with the
    reason "Status code: <code>". *)
Theorem health_check_classification (s : Session HighloadUser) :
  (In Success (events_of health_check s) <->
     status_code (next_response s) = 200%Z
     /\ exists d, body_json (next_response s) = Some (JObj d)
                  /\ dict_get d "status" = Some (JStr "healthy"))
  /\ (forall d v,
        status_code (next_response s) = 200%Z ->
        body_json (next_response s) = Some (JObj d) ->
        dict_get d "status" = Some v ->
        v <> JStr "healthy" ->
        fst (health_check s) = Ok tt
        /\ events_of health_check s =
             [Request "GET" "/health" None true; Failure "Service unhealthy"])
  /\ (status_code (next_response s) <> 200%Z ->
      fst (health_check s) = Ok tt
      /\ events_of health_check s =
           [Request "GET" "/health" None true;
            Failure ("Status code: " ++ str (status_code (next_response s)))]).
Proof.
  rewrite events_of_health_check, health_check_run. simpl fst.
  unfold health_outcome.
  destruct (next_response s) as [code body]. simpl.
  split; [| split].
  - destruct (Z.eqb_spec code 200) as [E | N].
    + destruct body as [[| | | | | d] |]; simpl;
        try (split; [intros [F | []]; discriminate
                    | intros (_ & d' & D & _); discriminate]).
      destruct (eq_str (dict_get d "status") "healthy") eqn:Q.
      * apply eq_str_true in Q. split; [| simpl; auto].
        intros _. split; [exact E | exists d; auto].
      * split.
        -- intros [F | [F | []]]; discriminate.
        -- intros (_ & d' & D & S'). inversion D; subst d'.
           apply eq_str_true in S'. congruence.
    + split.
      * intros [F | [F | []]]; discriminate.
      * intros [E _]. contradiction.
  - intros d v E B D V. subst code. rewrite B. simpl. rewrite D.
    destruct (eq_str (Some v) "healthy") eqn:Q; [| auto].
    apply eq_str_true in Q. congruence.
  - intro N. apply Z.eqb_neq in N. rewrite N. auto.
Qed.

(** C10. A 200 response whose decoded body is an object without a
    ["status"] field is marked failed with the reason "Service
    unhealthy", as one with a ["status"] other than ["healthy"] is. *)
Theorem health_check_missing_status (s : Session HighloadUser)
        (d : list (string * json)) :
  status_code (next_response s) = 200%Z ->
  body_json (next_response s) = Some (JObj d) ->
  dict_get d "status" = None ->
  fst (health_check s) = Ok tt
  /\ events_of health_check s =
       [Request "GET" "/health" None true; Failure "Service unhealthy"].
Proof.
  intros E B D.
  rewrite events_of_health_check, health_check_run. simpl fst.
  unfold health_outcome. rewrite E, B, D. simpl. auto.
Qed.

(** C5. [metrics_count] grows by one when [send_metric] is answered
    with status 200 and is the same after every other outcome and
    after [send_batch], [get_analysis] and [health_check]. *)
Theorem metrics_count_frame (s : Session HighloadUser) :
  metrics_count (self (snd (send_metric s))) =
    (metrics_count (self s)
     + if (status_code (next_response s) =? 200)%Z then 1 else 0)%Z
  /\ metrics_count (self (snd (send_batch s))) = metrics_count (self s)
  /\ metrics_count (self (snd (get_analysis s))) = metrics_count (self s)
  /\ metrics_count (self (snd (health_check s))) = metrics_count (self s).
Proof.
  destruct (send_metric_run s) as (sample & r1 & E1 & _).
  destruct (send_batch_run s) as (samples & r2 & E2 & _).
  rewrite E1, E2, get_analysis_run, health_check_run. simpl.
  repeat split.
  destruct (status_code (next_response s) =? 200)%Z; simpl; lia.
Qed.
End Classification.

(** C8. The weights of the four tasks of [HighloadUser] are 10, 2, 1
    and 1, every weight is positive, and the task list Locust picks
    from holds each task as many times as its weight. *)
Theorem task_weights :
  weight SendMetric = 10%nat /\ weight SendBatch = 2%nat
  /\ weight GetAnalysis = 1%nat /\ weight HealthCheck = 1%nat
  /\ (forall t, (0 < weight t)%nat)
  /\ (forall t, In t task_names)
  /\ (forall t, length (filter (task_name_eqb t) tasks) = weight t)
  /\ length tasks = 14%nat.
Proof.
  repeat split; try (intros []; simpl; lia);
    intros []; simpl; auto 6.
Qed.

Lemma round2_hundredths (x : Q) : exists k : Z, round2 x == k # 100.
Proof.
  exists (round_half_even (x * 100)). unfold round2.
  rewrite Qred_correct. unfold Qdiv, Qeq. simpl. lia.
Qed.

Section HighRPSUserRuns.
Context `{RandomModule}.

Lemma rapid_metrics_run (h : Session HighRPSUser) :
  rapid_metrics h =
    (Ok tt,
     mkSession (self h)
       (mkWorld _
          (snd (rand_uniform 200 800 (snd (rand_uniform 20 80 (rng (world h))))))
          (clock (world h)) (S (ticks (world h)))
          (service (world h)) (S (requests (world h)))
          (log (world h)
           ++ [Request "POST" "/metrics"
                 (Some
                    (JObj
                       [("timestamp",
                         JStr (isoformat (clock (world h) (ticks (world h))) ++ "Z"));
                        ("cpu",
                         JNum (round2 (fst (rand_uniform 20 80 (rng (world h))))));
                        ("rps",
                         JNum (round2 (fst (rand_uniform 200 800
                                 (snd (rand_uniform 20 80 (rng (world h))))))))]))
                 false])%list)).
Proof.
  destruct_session h. unfold rapid_metrics. unfold_calls. simpl.
  destruct (rand_uniform 20 80 r) as [cpu r1]. simpl.
  destruct (rand_uniform 200 800 r1) as [rps r2]. simpl.
  reflexivity.
Qed.

Lemma events_of_rapid_metrics (h : Session HighRPSUser) :
  events_of rapid_metrics h =
    [Request "POST" "/metrics"
       (Some
          (JObj
             [("timestamp",
               JStr (isoformat (clock (world h) (ticks (world h))) ++ "Z"));
              ("cpu", JNum (round2 (fst (rand_uniform 20 80 (rng (world h))))));
              ("rps",
               JNum (round2 (fst (rand_uniform 200 800
                       (snd (rand_uniform 20 80 (rng (world h))))))))]))
       false].
Proof.
  unfold events_of. rewrite rapid_metrics_run. simpl. apply skipn_length_app.
Qed.

(** C7. The one request [rapid_metrics] issues is a POST of a single
    sample to [/metrics]: its [cpu] is the two-place rounding of a
    draw of [uniform(20, 80)], its [rps] that of a draw of
    [uniform(200, 800)], both within those bounds, with no
    [device_id] field; no other draw is made (no anomaly roll), the
    task leaves no outcome mark, and nothing it does depends on what
    the service answers. *)
Theorem rapid_metrics_fire_and_forget (h : Session HighRPSUser) :
  exists cpu rps payload,
    cpu = fst (rand_uniform 20 80 (rng (world h)))
    /\ rps = fst (rand_uniform 200 800 (snd (rand_uniform 20 80 (rng (world h)))))
    /\ payload =
         JObj [("timestamp",
                JStr (isoformat (clock (world h) (ticks (world h))) ++ "Z"));
               ("cpu", JNum (round2 cpu));
               ("rps", JNum (round2 rps))]
    /\ events_of rapid_metrics h = [Request "POST" "/metrics" (Some payload) false]
    /\ (20 <= cpu /\ cpu <= 80) /\ (200 <= rps /\ rps <= 800)
    /\ (20 <= round2 cpu /\ round2 cpu <= 80)
    /\ (200 <= round2 rps /\ round2 rps <= 800)
    /\ (exists k, round2 cpu == k # 100) /\ (exists k, round2 rps == k # 100)
    /\ field "device_id" payload = None
    /\ rng (world (snd (rapid_metrics h))) =
         snd (rand_uniform 200 800 (snd (rand_uniform 20 80 (rng (world h)))))
    /\ marks (events_of rapid_metrics h) = []
    /\ self (snd (rapid_metrics h)) = self h
    /\ forall sv,
         rapid_metrics (with_service sv h) =
           (Ok tt, with_service sv (snd (rapid_metrics h))).
Proof.
  pose proof (rand_uniform_between 20 80 (rng (world h)) ltac:(discriminate))
    as [C0 C1].
  pose proof (rand_uniform_between 200 800
                (snd (rand_uniform 20 80 (rng (world h)))) ltac:(discriminate))
    as [R0 R1].
  pose proof (events_of_rapid_metrics h) as E.
  eexists _, _, _.
  split; [reflexivity |]. split; [reflexivity |]. split; [reflexivity |].
  split; [exact E |].
  split; [auto |]. split; [auto |].
  split; [split; [apply (round2_ge 20) | apply (round2_le 80)]; assumption |].
  split; [split; [apply (round2_ge 200) | apply (round2_le 800)]; assumption |].
  split; [apply round2_hundredths |]. split; [apply round2_hundredths |].
  split; [reflexivity |].
  split; [rewrite rapid_metrics_run; reflexivity |].
  split; [rewrite E; reflexivity |].
  split; [rewrite rapid_metrics_run; reflexivity |].
  intro sv. rewrite !rapid_metrics_run. reflexivity.
Qed.
End HighRPSUserRuns.

(** ** What the tasks send *)

Section Effects.
Context `{RandomModule}.

Lemma samples_of_status_mark (r : Response) : samples_of (status_mark r) = [].
Proof. unfold status_mark. destruct (status_code r =? 200)%Z; reflexivity. Qed.

Lemma events_of_send_metric (s : Session HighloadUser) :
  exists sample,
    events_of send_metric s =
      [Request "POST" "/metrics" (Some sample) true; status_mark (next_response s)]
    /\ fst (synthesize_one (Some (device_id (self s))) s) = Ok sample
    /\ in_range sample = true
    /\ field "device_id" sample = Some (JStr (device_id (self s))).
Proof.
  destruct (send_metric_run s) as (sample & r1 & E & F).
  exists sample. split; [| exact F].
  unfold events_of. rewrite E. simpl. apply skipn_length_app.
Qed.

Lemma events_of_send_batch (s : Session HighloadUser) :
  exists samples,
    events_of send_batch s =
      [Request "POST" "/metrics/batch" (Some (JObj [("metrics", JArr samples)])) true;
       status_mark (next_response s)]
    /\ fst (replicate 10 (synthesis_steps false (Some (device_id (self s)))) s)
       = Ok samples
    /\ length samples = 10%nat
    /\ forallb in_range samples = true
    /\ map timestamp_of samples = stamps (clock (world s)) (ticks (world s)) 10
    /\ map (field "device_id") samples
       = repeat (Some (JStr (device_id (self s)))) 10.
Proof.
  destruct (send_batch_run s) as (samples & r1 & E & F).
  exists samples. split; [| exact F].
  unfold events_of. rewrite E. simpl. apply skipn_length_app.
Qed.

Lemma events_of_get_analysis (s : Session HighloadUser) :
  events_of get_analysis s =
    [Request "GET" "/analyze" None true; status_mark (next_response s)].
Proof.
  unfold events_of. rewrite get_analysis_run. simpl. apply skipn_length_app.
Qed.

(** C4. The sample of [send_metric], the ten samples of [send_batch]
    and the sample of [rapid_metrics] all have [0 <= cpu <= 100] and
    [0 <= rps], for every outcome of the random draws, the anomaly
    roll included. *)
Theorem synthesized_samples_in_range
        (s : Session HighloadUser) (h : Session HighRPSUser) :
  (length (samples_sent (events_of send_metric s)) = 1%nat
   /\ forallb in_range (samples_sent (events_of send_metric s)) = true)
  /\ (length (samples_sent (events_of send_batch s)) = 10%nat
      /\ forallb in_range (samples_sent (events_of send_batch s)) = true)
  /\ (length (samples_sent (events_of rapid_metrics h)) = 1%nat
      /\ forallb in_range (samples_sent (events_of rapid_metrics h)) = true).
Proof.
  destruct (events_of_send_metric s) as (sample & E1 & _ & R1 & _).
  destruct (events_of_send_batch s) as (samples & E2 & _ & L2 & R2 & _).
  pose proof (rand_uniform_between 20 80 (rng (world h)) ltac:(discriminate))
    as [C0 C1].
  pose proof (rand_uniform_between 200 800
                (snd (rand_uniform 20 80 (rng (world h)))) ltac:(discriminate))
    as [R0 _].
  rewrite E1, E2, events_of_rapid_metrics. unfold samples_sent. simpl.
  rewrite !samples_of_status_mark, !app_nil_r. simpl.
  rewrite R1, R2, L2.
  rewrite built_sample_in_range; [auto | lra | lra | lra].
Qed.
End Effects.

(** ** The order of time stamps *)

Lemma lex_compare_refl (a : list N) : lex_compare a a = Eq.
Proof.
  induction a as [| x a IH]; simpl; [reflexivity |].
  rewrite N.compare_refl. exact IH.
Qed.

Lemma lex_compare_trans_le (a : list N) :
  forall b c,
    lex_compare a b <> Gt -> lex_compare b c <> Gt -> lex_compare a c <> Gt.
Proof.
  induction a as [| x a IH]; intros [| y b] [| z c]; simpl; try congruence.
  destruct (N.compare_spec x y) as [Exy | Lxy | Gxy];
    destruct (N.compare_spec y z) as [Eyz | Lyz | Gyz];
    try congruence; intros Hab Hbc.
  - subst. rewrite N.compare_refl. eapply IH; eassumption.
  - subst. rewrite (proj2 (N.compare_lt_iff _ _) Lyz). discriminate.
  - subst. rewrite (proj2 (N.compare_lt_iff _ _) Lxy). discriminate.
  - rewrite (proj2 (N.compare_lt_iff x z)) by lia. discriminate.
Qed.

Lemma dt_le_refl (d : datetime) : dt_le d d.
Proof. unfold dt_le, dt_leb. rewrite lex_compare_refl. reflexivity. Qed.

Lemma dt_le_trans (d1 d2 d3 : datetime) : dt_le d1 d2 -> dt_le d2 d3 -> dt_le d1 d3.
Proof.
  unfold dt_le, dt_leb. intros H12 H23.
  pose proof (lex_compare_trans_le (dt_fields d1) (dt_fields d2) (dt_fields d3)) as T.
  destruct (lex_compare (dt_fields d1) (dt_fields d2)); try discriminate;
    destruct (lex_compare (dt_fields d2) (dt_fields d3)); try discriminate;
    destruct (lex_compare (dt_fields d1) (dt_fields d3)); try reflexivity;
    exfalso; apply T; congruence.
Qed.

(** A clock that never steps back between one reading and the next
    gives readings in order. *)
Lemma readings_sorted (clk : nat -> datetime) (n : nat) :
  forall t,
    (forall i, (t <= i)%nat -> (S i < t + n)%nat -> dt_le (clk i) (clk (S i))) ->
    StronglySorted dt_le (map clk (seq t n)).
Proof.
  induction n as [| n IH]; intros t Hstep; simpl; constructor.
  - apply IH. intros i Hi Hn. apply Hstep; lia.
  - apply Forall_forall. intros d Hd.
    apply in_map_iff in Hd. destruct Hd as (j & <- & Hj).
    apply in_seq in Hj.
    assert (G : forall k, (t + k < t + S n)%nat -> dt_le (clk t) (clk (t + k)%nat)).
    { induction k as [| k IHk]; intro Hk.
      - rewrite Nat.add_0_r. apply dt_le_refl.
      - eapply dt_le_trans; [apply IHk; lia |].
        rewrite Nat.add_succ_r. apply Hstep; lia. }
    replace j with (t + (j - t))%nat by lia. apply G. lia.
Qed.

Section BatchOrder.
Context `{RandomModule}.

(** C6. [send_batch] sends one request whose ["metrics"] list holds
    exactly ten samples, every one of them in range; the samples are
    stamped, in list order, with the next ten readings of the clock,
    and when the clock does not step back between those readings the
    stamped times are in non-decreasing order. *)
Theorem send_batch_ten_ordered_samples (s : Session HighloadUser) :
  (forall i, (ticks (world s) <= i)%nat -> (S i < ticks (world s) + 10)%nat ->
             dt_le (clock (world s) i) (clock (world s) (S i))) ->
  exists samples readings,
    events_of send_batch s =
      [Request "POST" "/metrics/batch" (Some (JObj [("metrics", JArr samples)])) true;
       status_mark (next_response s)]
    /\ length samples = 10%nat
    /\ forallb in_range samples = true
    /\ readings = map (clock (world s)) (seq (ticks (world s)) 10)
    /\ map timestamp_of samples =
         map (fun d => Some (isoformat d ++ "Z")) readings
    /\ StronglySorted dt_le readings.
Proof.
  intro Hclock.
  destruct (events_of_send_batch s) as (samples & E & _ & L & R & T & _).
  exists samples, (map (clock (world s)) (seq (ticks (world s)) 10)).
  split; [exact E |]. split; [exact L |]. split; [exact R |].
  split; [reflexivity |].
  split.
  - rewrite T. unfold stamps. rewrite map_map. reflexivity.
  - apply readings_sorted. exact Hclock.
Qed.
End BatchOrder.

(** ** The device identifier over a session *)

Lemma forallb_carries_repeat (dev : string) (samples : list json) (n : nat) :
  map (field "device_id") samples = repeat (Some (JStr dev)) n ->
  forallb (carries_device dev) samples = true.
Proof.
  revert n. induction samples as [| m l IH]; intros n E; [reflexivity |].
  destruct n as [| n]; [discriminate |]. simpl in E.
  injection E as E1 E2.
  simpl. unfold carries_device at 1. rewrite E1, String.eqb_refl. simpl.
  exact (IH n E2).
Qed.

Section DeviceIdentifier.
Context `{RandomModule}.

(** A turn appends to the log, keeps the device identifier, and every
    sample it sends carries that identifier. *)
Lemma perform_effect (t : task_name) (s : Session HighloadUser) :
  exists new,
    log (world (snd (perform t s))) = (log (world s) ++ new)%list
    /\ device_id (self (snd (perform t s))) = device_id (self s)
    /\ forallb (carries_device (device_id (self s))) (samples_sent new) = true
    /\ length (samples_sent new) = samples_per_turn t.
Proof.
  destruct t; simpl perform.
  - destruct (send_metric_run s) as (sample & r1 & E & _ & _ & D).
    rewrite E. simpl. eexists. split; [reflexivity |].
    split; [destruct (status_code (next_response s) =? 200)%Z; reflexivity |].
    unfold samples_sent. simpl. rewrite samples_of_status_mark. simpl.
    unfold carries_device. rewrite D, String.eqb_refl. auto.
  - destruct (send_batch_run s) as (samples & r1 & E & _ & L & _ & _ & D).
    rewrite E. simpl. eexists. split; [reflexivity |]. split; [reflexivity |].
    unfold samples_sent. simpl. rewrite samples_of_status_mark, !app_nil_r.
    split; [eapply forallb_carries_repeat; exact D | exact L].
  - rewrite get_analysis_run. simpl. eexists. split; [reflexivity |].
    split; [reflexivity |].
    unfold samples_sent. simpl. rewrite samples_of_status_mark. auto.
  - rewrite health_check_run. simpl. eexists. split; [reflexivity |].
    split; [reflexivity |].
    unfold samples_sent, health_outcome. simpl.
    destruct (status_code (next_response s) =? 200)%Z; [| auto].
    destruct (body_json (next_response s)) as [[| | | | | d] |]; simpl; auto.
    destruct (eq_str (dict_get d "status") "healthy"); auto.
Qed.

Lemma run_effect (catch_exceptions : bool) (turns : list task_name) :
  forall s : Session HighloadUser,
  exists new,
    log (world (snd (run catch_exceptions turns s))) = (log (world s) ++ new)%list
    /\ device_id (self (snd (run catch_exceptions turns s))) = device_id (self s)
    /\ forallb (carries_device (device_id (self s))) (samples_sent new) = true
    /\ (catch_exceptions = true ->
        length (samples_sent new) = list_sum (map samples_per_turn turns)).
Proof.
  induction turns as [| t turns IH]; intro s.
  - exists []. simpl. rewrite app_nil_r. auto.
  - destruct (perform_effect t s) as (new1 & L1 & D1 & C1 & N1).
    destruct (IH (snd (perform t s))) as (new2 & L2 & D2 & C2 & N2).
    assert (Both :
              log (world (snd (run catch_exceptions turns (snd (perform t s)))))
              = (log (world s) ++ new1 ++ new2)%list
              /\ device_id (self (snd (run catch_exceptions turns (snd (perform t s)))))
                 = device_id (self s)
              /\ forallb (carries_device (device_id (self s)))
                   (samples_sent (new1 ++ new2)) = true
              /\ (catch_exceptions = true ->
                  length (samples_sent (new1 ++ new2))
                  = list_sum (map samples_per_turn (t :: turns)))).
    { rewrite L2, L1, D2, D1, <- app_assoc. unfold samples_sent in *.
      rewrite flat_map_app, forallb_app, length_app, C1. rewrite D1 in C2.
      rewrite C2, N1. simpl. repeat split. intro E. rewrite (N2 E). reflexivity. }
    simpl run. destruct (perform t s) as [[[] | e] s1] eqn:P; simpl in *.
    + exists (new1 ++ new2)%list. exact Both.
    + destruct catch_exceptions.
      * exists (new1 ++ new2)%list. exact Both.
      * exists new1. simpl. repeat split; auto. discriminate.
Qed.

(** C9. [on_start] names the device "device-<k>" with [k] the draw of
    [randint(1, 1000)], so [1 <= k <= 1000]; whatever turns follow,
    the session keeps that name and every sample it sends, alone or
    in a batch, carries it; with Locust catching exceptions every
    turn is performed, one sample per [send_metric] and ten per
    [send_batch]. *)
Theorem device_id_stable (w : World) (catch_exceptions : bool)
        (turns : list task_name) :
  exists k,
    k = fst (rand_randint 1 1000 (rng w))
    /\ (1 <= k <= 1000)%Z
    /\ device_id (self (on_start w)) = "device-" ++ str k
    /\ device_id (self (snd (run catch_exceptions turns (on_start w))))
       = device_id (self (on_start w))
    /\ forallb (carries_device (device_id (self (on_start w))))
         (samples_sent (events_of (run catch_exceptions turns) (on_start w)))
       = true
    /\ length (samples_sent (events_of (run true turns) (on_start w)))
       = list_sum (map samples_per_turn turns).
Proof.
  exists (fst (rand_randint 1 1000 (rng w))).
  split; [reflexivity |].
  split; [apply rand_randint_between; lia |].
  split; [unfold on_start; destruct (rand_randint 1 1000 (rng w)); reflexivity |].
  destruct (run_effect catch_exceptions turns (on_start w)) as (new & L & D & C & _).
  destruct (run_effect true turns (on_start w)) as (new' & L' & _ & _ & N).
  unfold events_of. rewrite L, L', !skipn_length_app. auto.
Qed.
End DeviceIdentifier.

(** ** The batch and the anomaly override *)

Section BatchAnomalies.
Context `{RandomModule}.

(** C1, as the code has it.  The sample of [send_metric] is built by
    the eight steps, the anomaly override among them; each of the ten
    samples of [send_batch] is built by the same steps without the
    override: no anomaly is rolled for a batch element, whose [cpu]
    and [rps] are always the rounded, clamped Gaussian draws. *)
Theorem send_batch_steps_without_anomaly (s : Session HighloadUser) :
  (exists sample,
      events_of send_metric s =
        [Request "POST" "/metrics" (Some sample) true; status_mark (next_response s)]
      /\ fst (synthesis_steps true (Some (device_id (self s))) s) = Ok sample)
  /\ (exists samples,
         events_of send_batch s =
           [Request "POST" "/metrics/batch"
              (Some (JObj [("metrics", JArr samples)])) true;
            status_mark (next_response s)]
         /\ fst (replicate 10 (synthesis_steps false (Some (device_id (self s)))) s)
            = Ok samples).
Proof.
  split.
  - destruct (events_of_send_metric s) as (sample & E & F & _).
    exists sample. split; [exact E | exact F].
  - destruct (events_of_send_batch s) as (samples & E & F & _).
    exists samples. split; [exact E | exact F].
Qed.
End BatchAnomalies.

(** C1 with the override in the batch fails at a generator whose every
    roll is an anomaly: ten runs of the single-metric synthesis give
    ten samples with [cpu] 95 and [rps] 1500, while the samples
    [send_batch] sends all have [cpu] 50 and [rps] 500. *)
Lemma send_batch_rolls_no_anomaly :
  map (fun m => (field "cpu" m, field "rps" m))
    (samples_sent
       (events_of send_batch (scripted_session [] (always (mkResponse 200 None)))))
  = repeat (Some (JNum 50), Some (JNum 500)) 10
  /\ option_map (map (fun m => (field "cpu" m, field "rps" m)))
       (match fst (synthesize_batch 10 (Some "device-7")
                     (scripted_session [] (always (mkResponse 200 None)))) with
        | Ok samples => Some samples
        | Raise _ => None
        end)
     = Some (repeat (Some (JNum 95), Some (JNum 1500)) 10)
  /\ Ok (samples_sent
           (events_of send_batch (scripted_session [] (always (mkResponse 200 None)))))
     <> fst (synthesize_batch 10 (Some "device-7")
               (scripted_session [] (always (mkResponse 200 None)))).
Proof. vm_compute. repeat split. discriminate. Qed.

(** ** Responses the health check does not classify *)

Section Unclassified.
Context `{RandomModule}.

(** The three tasks that look at the status code alone return normally
    and leave exactly one mark, whatever the service answers. *)
Lemma status_tasks_always_classify (s : Session HighloadUser) :
  (fst (send_metric s) = Ok tt
   /\ marks (events_of send_metric s) = [status_mark (next_response s)])
  /\ (fst (send_batch s) = Ok tt
      /\ marks (events_of send_batch s) = [status_mark (next_response s)])
  /\ (fst (get_analysis s) = Ok tt
      /\ marks (events_of get_analysis s) = [status_mark (next_response s)]).
Proof.
  assert (K : forall r, is_mark (status_mark r) = true).
  { intro r. unfold status_mark. destruct (status_code r =? 200)%Z; reflexivity. }
  destruct (events_of_send_metric s) as (sample & E1 & _).
  destruct (send_metric_run s) as (sample' & r1 & F1 & _).
  destruct (events_of_send_batch s) as (samples & E2 & _).
  destruct (send_batch_run s) as (samples' & r2 & F2 & _).
  rewrite E1, E2, F1, F2, events_of_get_analysis, get_analysis_run.
  unfold marks. simpl. rewrite K. auto.
Qed.

(** [health_check] raises, and marks nothing, on a 200 response whose
    body does not decode to an object. *)
Lemma health_check_raises (s : Session HighloadUser) :
  status_code (next_response s) = 200%Z ->
  (forall d, body_json (next_response s) <> Some (JObj d)) ->
  (exists e, fst (health_check s) = Raise e)
  /\ events_of health_check s = [Request "GET" "/health" None true].
Proof.
  intros E B. rewrite events_of_health_check, health_check_run. simpl fst.
  unfold health_outcome. rewrite E. simpl.
  destruct (body_json (next_response s)) as [[| | | | | d] |]; simpl;
    try (split; [eexists; reflexivity | reflexivity]).
  exfalso. apply (B d). reflexivity.
Qed.
End Unclassified.

(** C3, at a 200 response whose body is not JSON (and at one whose body
    is a JSON array): [health_check] raises before it marks the
    response, so the turn leaves no success or failure record, and a
    session that does not catch exceptions stops there. *)
Lemma health_check_unclassified_body :
  fst (health_check (scripted_session [] (always (mkResponse 200 None))))
  = Raise JSONDecodeError
  /\ events_of health_check (scripted_session [] (always (mkResponse 200 None)))
     = [Request "GET" "/health" None true]
  /\ fst (health_check (scripted_session [] (always (mkResponse 200 (Some (JArr []))))))
     = Raise AttributeError
  /\ events_of health_check
       (scripted_session [] (always (mkResponse 200 (Some (JArr [])))))
     = [Request "GET" "/health" None true]
  /\ run false [HealthCheck; GetAnalysis]
       (scripted_session [] (always (mkResponse 200 None)))
     = (Raise JSONDecodeError,
        snd (health_check (scripted_session [] (always (mkResponse 200 None))))).
Proof. repeat split. Qed.

(** ** The tasks at concrete sessions *)

(** The anomaly roll succeeds: the sample is an anomaly pair. *)
Example send_metric_anomalous :
  samples_sent
    (events_of send_metric (scripted_session [1; -1; 0; 2; 3] (always (mkResponse 200 None))))
  = [JObj [("timestamp", JStr "2024-01-01T00:00:00Z");
           ("cpu", JNum 99); ("rps", JNum 10);
           ("device_id", JStr "device-7")]].
Proof. vm_compute. reflexivity. Qed.

(** The roll fails: the sample is the rounded Gaussian pair,
    [50 + 15/7] and [500 - 100/3]. *)
Example send_metric_ordinary :
  samples_sent
    (events_of send_metric
       (scripted_session [1 # 7; -1 # 3; 1 # 2] (always (mkResponse 500 None))))
  = [JObj [("timestamp", JStr "2024-01-01T00:00:00Z");
           ("cpu", JNum (Qred 52.14)); ("rps", JNum (Qred 466.67));
           ("device_id", JStr "device-7")]]
  /\ marks
       (events_of send_metric
          (scripted_session [1 # 7; -1 # 3; 1 # 2] (always (mkResponse 500 None))))
     = [Failure "Status code: 500"].
Proof. vm_compute. split; reflexivity. Qed.

(** Draws outside the domain are clamped to its ends. *)
Example send_metric_clamped :
  map (fun m => (field "cpu" m, field "rps" m))
    (samples_sent
       (events_of send_batch
          (scripted_session [4; -6; -4; 0] (always (mkResponse 200 None)))))
  = ([(Some (JNum 100), Some (JNum 0)); (Some (JNum 0), Some (JNum 500))]
     ++ repeat (Some (JNum 50), Some (JNum 500)) 8)%list.
Proof. vm_compute. reflexivity. Qed.

Example rapid_metrics_sample :
  events_of rapid_metrics
    (mkSession mkHighRPSUser (scripted_world [1 # 3; 1] (always (mkResponse 500 None))))
  = [Request "POST" "/metrics"
       (Some (JObj [("timestamp", JStr "2024-01-01T00:00:00Z");
                    ("cpu", JNum 40); ("rps", JNum 800)]))
       false].
Proof. vm_compute. reflexivity. Qed.

Example isoformat_fraction :
  isoformat (mkDatetime 2024 2 29 23 59 7 1500) = "2024-02-29T23:59:07.001500"
  /\ isoformat (mkDatetime 987 12 1 0 0 0 0) = "0987-12-01T00:00:00".
Proof. split; reflexivity. Qed.

Example round2_ties_to_even :
  round2 0.125 = Qred 0.12 /\ round2 0.375 = Qred 0.38 /\ round2 (-0.125) = Qred (-0.12)
  /\ round2 95 = 95 /\ round2 (2 # 3) = Qred 0.67.
Proof. vm_compute. repeat split. Qed.

(** ** The theorems at concrete sessions *)

Lemma health_check_classification_witness :
  In Success
     (events_of health_check
        (scripted_session [] (always (mkResponse 200 (Some healthy_body)))))
  /\ events_of health_check
       (scripted_session [] (always (mkResponse 200 (Some degraded_body))))
     = [Request "GET" "/health" None true; Failure "Service unhealthy"]
  /\ events_of health_check
       (scripted_session [] (always (mkResponse 503 None)))
     = [Request "GET" "/health" None true; Failure "Status code: 503"].
Proof.
  split; [| split].
  - apply (proj1 (health_check_classification
                    (scripted_session [] (always (mkResponse 200 (Some healthy_body)))))).
    split; [reflexivity |].
    exists [("status", JStr "healthy")]. split; reflexivity.
  - apply (proj1 (proj2 (health_check_classification
                    (scripted_session [] (always (mkResponse 200 (Some degraded_body))))))
             [("status", JStr "degraded")] (JStr "degraded"));
      [reflexivity | reflexivity | reflexivity | discriminate].
  - apply (proj2 (proj2 (health_check_classification
                    (scripted_session [] (always (mkResponse 503 None)))))).
    discriminate.
Defined.

Lemma health_check_missing_status_witness :
  fst (health_check
         (scripted_session [] (always (mkResponse 200 (Some statusless_body)))))
  = Ok tt
  /\ events_of health_check
       (scripted_session [] (always (mkResponse 200 (Some statusless_body))))
     = [Request "GET" "/health" None true; Failure "Service unhealthy"].
Proof.
  apply (health_check_missing_status
           (scripted_session [] (always (mkResponse 200 (Some statusless_body))))
           [("uptime", JNum 12)]); reflexivity.
Defined.

Lemma send_batch_ten_ordered_samples_witness :
  exists samples readings,
    events_of send_batch (scripted_session [1; -6; 4] (always (mkResponse 200 None)))
    = [Request "POST" "/metrics/batch" (Some (JObj [("metrics", JArr samples)])) true;
       Success]
    /\ length samples = 10%nat
    /\ forallb in_range samples = true
    /\ readings = map quarter_clock (seq 0 10)
    /\ map timestamp_of samples = map (fun d => Some (isoformat d ++ "Z")) readings
    /\ StronglySorted dt_le readings.
Proof.
  apply (send_batch_ten_ordered_samples
           (scripted_session [1; -6; 4] (always (mkResponse 200 None)))).
  intros i _ Hi. simpl in Hi.
  do 9 (destruct i as [| i]; [reflexivity |]). lia.
Defined.

(** * Further properties of the script *)

(** ** Rounding *)

Ltac compare_props :=
  repeat match goal with
         | H : (_ ?= _) = Eq |- _ => apply Qeq_alt in H
         | H : (_ ?= _) = Lt |- _ => apply Qlt_alt in H
         | H : (_ ?= _) = Gt |- _ => apply Qgt_alt in H
         end.

Lemma round_half_even_Z (k : Z) : round_half_even (inject_Z k) = k.
Proof.
  unfold round_half_even. rewrite Qfloor_Z.
  assert (L : inject_Z k - inject_Z k < 1 # 2) by lra.
  rewrite (proj1 (Qlt_alt _ _) L). reflexivity.
Qed.

Lemma round_half_even_comp (x y : Q) : x == y -> round_half_even x = round_half_even y.
Proof.
  intro E. unfold round_half_even. rewrite (Qfloor_comp _ _ E).
  assert (C : (x - inject_Z (Qfloor y) ?= 1 # 2) = (y - inject_Z (Qfloor y) ?= 1 # 2)).
  { apply Qcompare_comp; [rewrite E |]; reflexivity. }
  rewrite C. reflexivity.
Qed.


Lemma round_half_even_mono (x y : Q) :
  x <= y -> (round_half_even x <= round_half_even y)%Z.
Proof.
  intro H. pose proof (Qfloor_resp_le _ _ H) as F.
  destruct (Z.eq_dec (Qfloor x) (Qfloor y)) as [E | N].
  - unfold round_half_even. rewrite <- E.
    destruct (x - inject_Z (Qfloor x) ?= 1 # 2) eqn:Cx;
      destruct (y - inject_Z (Qfloor x) ?= 1 # 2) eqn:Cy;
      try destruct (Z.even (Qfloor x)); try lia; exfalso;
      compare_props; lra.
  - assert (Ux : (round_half_even x <= Qfloor x + 1)%Z).
    { unfold round_half_even.
      destruct (x - inject_Z (Qfloor x) ?= 1 # 2); try destruct (Z.even (Qfloor x)); lia. }
    assert (Ly : (Qfloor y <= round_half_even y)%Z).
    { unfold round_half_even.
      destruct (y - inject_Z (Qfloor y) ?= 1 # 2); try destruct (Z.even (Qfloor y)); lia. }
    lia.
Qed.


(** X4. [round(x, 2)] keeps the order of its arguments. *)
Theorem round2_monotone (x y : Q) : x <= y -> round2 x <= round2 y.
Proof.
  intro H. unfold round2. rewrite !Qred_correct.
  assert (M : (round_half_even (x * 100) <= round_half_even (y * 100))%Z).
  { apply round_half_even_mono. lra. }
  rewrite Zle_Qle in M. unfold Qdiv. change (/ 100) with (1 # 100). lra.
Qed.

(** X17. Rounding a rounded value changes nothing: what is sent is
    already a number of hundredths. *)
Theorem round2_idempotent (x : Q) : round2 (round2 x) = round2 x.
Proof.
  assert (E : round2 x * 100 == inject_Z (round_half_even (x * 100))).
  { unfold round2. rewrite Qred_correct. field. }
  unfold round2 at 1.
  rewrite (round_half_even_comp _ _ E), round_half_even_Z. reflexivity.
Qed.

(** X2. What is sent for a raw draw [x]: for [cpu], exactly 0 when
    [x <= 0], exactly 100 when [100 <= x], the rounding of [x]
    otherwise; for [rps], exactly 0 when [x <= 0] and the rounding of
    [x] otherwise. *)
Theorem clamped_value_sent (x : Q) :
  round2 (py_max 0 (py_min 100 x))
  = (if Qle_bool x 0 then 0 else if Qle_bool 100 x then 100 else round2 x)
  /\ round2 (py_max 0 x) = (if Qle_bool x 0 then 0 else round2 x).
Proof.
  unfold py_max, py_min.
  destruct (Qle_bool x 0) eqn:L0.
  - apply Qle_bool_iff in L0.
    assert (C0 : (x ?= 0) <> Gt) by (intro C; compare_props; lra).
    destruct (x ?= 100) eqn:C1; compare_props; try lra.
    destruct (x ?= 0); try congruence; split; reflexivity.
  - assert (G0 : 0 < x).
    { apply Qnot_le_lt. intro L. apply Qle_bool_iff in L. congruence. }
    rewrite (proj1 (Qgt_alt _ _) G0).
    destruct (Qle_bool 100 x) eqn:L1.
    + apply Qle_bool_iff in L1.
      destruct (x ?= 100) eqn:C1; compare_props; try lra; split; reflexivity.
    + assert (G1 : x < 100).
      { apply Qnot_le_lt. intro L. apply Qle_bool_iff in L. congruence. }
      rewrite (proj1 (Qlt_alt _ _) G1), (proj1 (Qgt_alt _ _) G0).
      split; reflexivity.
Qed.

(** ** The sample of [send_metric] *)

Lemma anomaly_cpu_value i :
  (i < 6)%nat ->
  In (nth i [95; 98; 99; 5; 2; 1] 0) [95; 98; 99; 5; 2; 1]
  /\ round2 (nth i [95; 98; 99; 5; 2; 1] 0) = nth i [95; 98; 99; 5; 2; 1] 0.
Proof.
  intro Hi.
  do 6 (destruct i as [| i]; [split; [simpl; auto 7 | reflexivity] |]). lia.
Qed.

Lemma anomaly_rps_value i :
  (i < 4)%nat ->
  In (nth i [1500; 2000; 50; 10] 0) [1500; 2000; 50; 10]
  /\ round2 (nth i [1500; 2000; 50; 10] 0) = nth i [1500; 2000; 50; 10] 0.
Proof.
  intro Hi.
  do 4 (destruct i as [| i]; [split; [simpl; auto 5 | reflexivity] |]). lia.
Qed.

Section SingleSample.
Context `{RandomModule}.

Lemma synthesize_one_cases (dev : string) (s : Session HighloadUser) :
  exists cpu rps,
    fst (synthesize_one (Some dev) s) =
      Ok (JObj [("timestamp",
                 JStr (isoformat (clock (world s) (ticks (world s))) ++ "Z"));
                ("cpu", JNum cpu); ("rps", JNum rps);
                ("device_id", JStr dev)])
    /\ (fst (anomaly_roll s) < 0.05 ->
        In cpu [95; 98; 99; 5; 2; 1] /\ In rps [1500; 2000; 50; 10])
    /\ (0.05 <= fst (anomaly_roll s) ->
        cpu = round2 (py_max 0 (py_min 100 (fst (cpu_draw s))))
        /\ rps = round2 (py_max 0 (fst (rps_draw s)))).
Proof.
  destruct_session s.
  unfold synthesize_one, synthesis_steps, clamp, anomaly_roll, rps_draw, cpu_draw.
  unfold_calls. simpl.
  destruct (rand_gauss 50 15 r) as [g1 r1]. simpl.
  destruct (rand_gauss 500 100 r1) as [g2 r2]. simpl.
  destruct (rand_random r2) as [u0 r3]. simpl.
  destruct (Qlt_le_dec u0 0.05) as [L | G]; simpl.
  - pose proof (rand_below_lt 6 r3 ltac:(lia)) as B6.
    destruct (rand_below 6 r3) as [i r4]. simpl.
    pose proof (rand_below_lt 4 r4 ltac:(lia)) as B4.
    destruct (rand_below 4 r4) as [j r5]. simpl in B6, B4.
    destruct (anomaly_cpu_value i B6) as [I1 E1].
    destruct (anomaly_rps_value j B4) as [I2 E2].
    simpl in E1, E2 |- *. rewrite E1, E2.
    eexists _, _. split; [reflexivity |].
    split; [intros _; split; [exact I1 | exact I2] | intro G; lra].
  - eexists _, _. split; [reflexivity |].
    split; [intro L; lra | auto].
Qed.

(** X1. [send_metric] sends one sample with the four fields
    [timestamp], [cpu], [rps], [device_id].  When the roll of
    [random.random()] is below 0.05 its [cpu] is one of 95, 98, 99, 5,
    2, 1 and its [rps] one of 1500, 2000, 50, 10, whatever the Gaussian
    draws were; otherwise they are the roundings of the clamped
    Gaussian draws. *)
Theorem send_metric_sample (s : Session HighloadUser) :
  exists cpu rps,
    samples_sent (events_of send_metric s) =
      [JObj [("timestamp",
              JStr (isoformat (clock (world s) (ticks (world s))) ++ "Z"));
             ("cpu", JNum cpu); ("rps", JNum rps);
             ("device_id", JStr (device_id (self s)))]]
    /\ (fst (anomaly_roll s) < 0.05 ->
        In cpu [95; 98; 99; 5; 2; 1] /\ In rps [1500; 2000; 50; 10])
    /\ (0.05 <= fst (anomaly_roll s) ->
        cpu = round2 (py_max 0 (py_min 100 (fst (cpu_draw s))))
        /\ rps = round2 (py_max 0 (fst (rps_draw s)))).
Proof.
  destruct (synthesize_one_cases (device_id (self s)) s) as (cpu & rps & E & A & B).
  destruct (events_of_send_metric s) as (sample & Ev & F & _).
  exists cpu, rps. split; [| split; assumption].
  rewrite Ev. unfold samples_sent. simpl.
  rewrite samples_of_status_mark. simpl. congruence.
Qed.
End SingleSample.

Lemma send_metric_sample_witness :
  (exists cpu rps,
      samples_sent
        (events_of send_metric
           (scripted_session [1; -1; 0; 2; 3] (always (mkResponse 200 None))))
      = [JObj [("timestamp", JStr "2024-01-01T00:00:00Z");
               ("cpu", JNum cpu); ("rps", JNum rps);
               ("device_id", JStr "device-7")]]
      /\ In cpu [95; 98; 99; 5; 2; 1] /\ In rps [1500; 2000; 50; 10])
  /\ (exists cpu rps,
         samples_sent
           (events_of send_metric
              (scripted_session [7; -6; 1 # 2] (always (mkResponse 200 None))))
         = [JObj [("timestamp", JStr "2024-01-01T00:00:00Z");
                  ("cpu", JNum cpu); ("rps", JNum rps);
                  ("device_id", JStr "device-7")]]
         /\ cpu = 100 /\ rps = 0).
Proof.
  split.
  - destruct (send_metric_sample
                (scripted_session [1; -1; 0; 2; 3] (always (mkResponse 200 None))))
      as (cpu & rps & E & A & _).
    exists cpu, rps. split; [exact E |]. apply A. reflexivity.
  - destruct (send_metric_sample
                (scripted_session [7; -6; 1 # 2] (always (mkResponse 200 None))))
      as (cpu & rps & E & _ & B).
    exists cpu, rps. split; [exact E |]. apply B. discriminate.
Defined.

(** ** A whole session of [HighloadUser] *)

Lemma delivered_app (l1 l2 : list event) :
  starts_clean l2 -> delivered (l1 ++ l2) = (delivered l1 + delivered l2)%Z.
Proof.
  intro C. induction l1 as [| e l1 IH]; [reflexivity |].
  simpl. rewrite IH.
  destruct e as [m p b c | |]; try lia.
  destruct l1 as [| e' l1]; simpl; [| destruct e'; lia].
  destruct l2 as [| [m' p' b' c' | | r'] l2]; simpl in *; lia.
Qed.

Lemma delivered_nonneg (l : list event) : (0 <= delivered l)%Z.
Proof.
  induction l as [| e l IH]; simpl; [lia |].
  destruct e as [m p b c | |]; try lia.
  destruct l as [| [| |] l]; try lia.
  destruct (String.eqb p "/metrics"); lia.
Qed.

Lemma stamps_app (clk : nat -> datetime) (t a b : nat) :
  stamps clk t (a + b) = (stamps clk t a ++ stamps clk (a + t) b)%list.
Proof.
  unfold stamps. rewrite seq_app, map_app, (Nat.add_comm t a). reflexivity.
Qed.

Section SessionEffects.
Context `{RandomModule}.

Lemma replicate_synthesis_keys (anomalies : bool) (dev : string) (n : nat) :
  forall (s : Session HighloadUser) (l : list json),
    fst (replicate n (synthesis_steps anomalies (Some dev)) s) = Ok l ->
    Forall (fun m => keys m = sample_keys) l.
Proof.
  induction n as [| n IH]; intros s l E.
  - simpl in E. unfold ret in E. simpl in E. injection E as <-. constructor.
  - simpl replicate in E. unfold bind, ret in E.
    destruct (synthesis_steps_run anomalies (Some dev) s) as (cpu & rps & r1 & E1 & _).
    rewrite E1 in E.
    match type of E with
    | context [replicate n ?m ?s1] =>
        specialize (IH s1); destruct (replicate n m s1) as [[l' | e] s2]
    end; simpl in E; [| discriminate].
    injection E as <-. constructor; [reflexivity | apply IH; reflexivity].
Qed.

(** What one turn does to the session, in terms of the events it adds. *)
Lemma perform_full_effect (t : task_name) (s : Session HighloadUser) :
  exists new,
    log (world (snd (perform t s))) = (log (world s) ++ new)%list
    /\ requests (world (snd (perform t s))) = (1 + requests (world s))%nat
    /\ length (filter is_request new) = 1%nat
    /\ ticks (world (snd (perform t s)))
       = (length (samples_sent new) + ticks (world s))%nat
    /\ clock (world (snd (perform t s))) = clock (world s)
    /\ metrics_count (self (snd (perform t s)))
       = (metrics_count (self s) + delivered new)%Z
    /\ map timestamp_of (samples_sent new)
       = stamps (clock (world s)) (ticks (world s)) (length (samples_sent new))
    /\ Forall (fun m => keys m = sample_keys) (samples_sent new)
    /\ starts_clean new
    /\ (length (marks new) <= 1)%nat
    /\ (fst (perform t s) = Ok tt -> length (marks new) = 1%nat).
Proof.
  destruct t; simpl perform.
  - destruct (send_metric_run s) as (sample & r1 & E & F & _).
    destruct (synthesis_steps_run true (Some (device_id (self s))) s)
      as (cpu & rps & r' & E' & _).
    unfold synthesize_one in F. rewrite E' in F. simpl in F. injection F as <-.
    rewrite E. simpl. eexists. split; [reflexivity |].
    unfold samples_sent, marks, status_mark, stamps.
    destruct (status_code (next_response s) =? 200)%Z; simpl;
      repeat split; auto; lia.
  - destruct (send_batch_run s) as (samples & r1 & E & F & L & _ & T & _).
    pose proof (replicate_synthesis_keys false _ 10 s samples F) as K.
    rewrite E. simpl. eexists. split; [reflexivity |].
    unfold samples_sent, marks, status_mark.
    destruct (status_code (next_response s) =? 200)%Z; simpl;
      rewrite !app_nil_r, L; repeat split; auto; lia.
  - rewrite get_analysis_run. simpl. eexists. split; [reflexivity |].
    unfold samples_sent, marks, status_mark, stamps.
    destruct (status_code (next_response s) =? 200)%Z; simpl;
      repeat split; auto; lia.
  - rewrite health_check_run. simpl. eexists. split; [reflexivity |].
    unfold samples_sent, marks, health_outcome, stamps.
    destruct (status_code (next_response s) =? 200)%Z; simpl;
      [| repeat split; auto; lia].
    destruct (body_json (next_response s)) as [[| | | | | d] |]; simpl;
      try (repeat split; auto; try lia; discriminate).
    destruct (eq_str (dict_get d "status") "healthy"); simpl;
      repeat split; auto; lia.
Qed.
End SessionEffects.

Section SessionRuns.
Context `{RandomModule}.

(** The same over any number of turns, whether or not Locust catches
    the exceptions of a task. *)
Lemma run_full_effect (catch_exceptions : bool) (turns : list task_name) :
  forall s : Session HighloadUser,
  exists new,
    log (world (snd (run catch_exceptions turns s))) = (log (world s) ++ new)%list
    /\ requests (world (snd (run catch_exceptions turns s)))
       = (length (filter is_request new) + requests (world s))%nat
    /\ (length (filter is_request new) <= length turns)%nat
    /\ (catch_exceptions = true -> length (filter is_request new) = length turns)
    /\ ticks (world (snd (run catch_exceptions turns s)))
       = (length (samples_sent new) + ticks (world s))%nat
    /\ clock (world (snd (run catch_exceptions turns s))) = clock (world s)
    /\ metrics_count (self (snd (run catch_exceptions turns s)))
       = (metrics_count (self s) + delivered new)%Z
    /\ map timestamp_of (samples_sent new)
       = stamps (clock (world s)) (ticks (world s)) (length (samples_sent new))
    /\ Forall (fun m => keys m = sample_keys) (samples_sent new)
    /\ starts_clean new
    /\ (length (marks new) <= length (filter is_request new))%nat
    /\ (catch_exceptions = false ->
        fst (run catch_exceptions turns s) = Ok tt ->
        length (marks new) = length turns).
Proof.
  induction turns as [| t turns IH]; intro s.
  - exists []. simpl. rewrite app_nil_r. repeat split; auto; lia.
  - destruct (perform_full_effect t s)
      as (new1 & L1 & Q1 & R1 & T1 & C1 & M1 & S1 & K1 & N1 & A1 & O1).
    destruct (IH (snd (perform t s)))
      as (new2 & L2 & Q2 & R2 & X2 & T2 & C2 & M2 & S2 & K2 & N2 & A2 & O2).
    assert (Clean : forall l, starts_clean (new1 ++ l)).
    { intro l. destruct new1 as [| e new1]; [simpl in R1; discriminate |].
      exact N1. }
    assert (Stop :
              log (world (snd (perform t s))) = (log (world s) ++ new1)%list
              /\ requests (world (snd (perform t s)))
                 = (length (filter is_request new1) + requests (world s))%nat
              /\ (length (filter is_request new1) <= length (t :: turns))%nat
              /\ ticks (world (snd (perform t s)))
                 = (length (samples_sent new1) + ticks (world s))%nat
              /\ clock (world (snd (perform t s))) = clock (world s)
              /\ metrics_count (self (snd (perform t s)))
                 = (metrics_count (self s) + delivered new1)%Z
              /\ map timestamp_of (samples_sent new1)
                 = stamps (clock (world s)) (ticks (world s))
                     (length (samples_sent new1))
              /\ Forall (fun m => keys m = sample_keys) (samples_sent new1)
              /\ starts_clean new1
              /\ (length (marks new1) <= length (filter is_request new1))%nat).
    { rewrite R1. simpl. repeat split; auto; lia. }
    assert (Go :
              log (world (snd (run catch_exceptions turns (snd (perform t s)))))
              = (log (world s) ++ new1 ++ new2)%list
              /\ requests (world (snd (run catch_exceptions turns (snd (perform t s)))))
                 = (length (filter is_request (new1 ++ new2)) + requests (world s))%nat
              /\ (length (filter is_request (new1 ++ new2)) <= length (t :: turns))%nat
              /\ (catch_exceptions = true ->
                  length (filter is_request (new1 ++ new2)) = length (t :: turns))
              /\ ticks (world (snd (run catch_exceptions turns (snd (perform t s)))))
                 = (length (samples_sent (new1 ++ new2)) + ticks (world s))%nat
              /\ clock (world (snd (run catch_exceptions turns (snd (perform t s)))))
                 = clock (world s)
              /\ metrics_count
                   (self (snd (run catch_exceptions turns (snd (perform t s)))))
                 = (metrics_count (self s) + delivered (new1 ++ new2))%Z
              /\ map timestamp_of (samples_sent (new1 ++ new2))
                 = stamps (clock (world s)) (ticks (world s))
                     (length (samples_sent (new1 ++ new2)))
              /\ Forall (fun m => keys m = sample_keys) (samples_sent (new1 ++ new2))
              /\ starts_clean (new1 ++ new2)
              /\ (length (marks (new1 ++ new2))
                  <= length (filter is_request (new1 ++ new2)))%nat).
    { unfold samples_sent, marks in *.
      rewrite L2, L1, Q2, Q1, T2, T1, C2, C1, M2, M1, <- app_assoc.
      rewrite delivered_app by exact N2.
      rewrite !filter_app, flat_map_app, !length_app, map_app, S1, stamps_app.
      rewrite C1, T1 in S2. rewrite S2, R1. simpl.
      repeat split; auto; try lia.
      apply Forall_app. split; assumption. }
    simpl run. destruct (perform t s) as [[[] | e] s1] eqn:P; simpl in *.
    + exists (new1 ++ new2)%list.
      destruct Go as (G1 & G2 & G3 & G4 & G5 & G6 & G7 & G8 & G9 & G10 & G11).
      repeat split; auto.
      intros E F. unfold marks in *. rewrite filter_app, length_app.
      rewrite (O1 eq_refl), (O2 E F). reflexivity.
    + destruct catch_exceptions.
      * exists (new1 ++ new2)%list.
        destruct Go as (G1 & G2 & G3 & G4 & G5 & G6 & G7 & G8 & G9 & G10 & G11).
        repeat split; auto. discriminate.
      * exists new1.
        destruct Stop as (G1 & G2 & G3 & G5 & G6 & G7 & G8 & G9 & G10 & G11).
        repeat split; auto; discriminate.
Qed.
End SessionRuns.

Section SessionProperties.
Context `{RandomModule}.

(** X7. [metrics_count] starts at 0 and over any turns grows by
    exactly the number of [/metrics] requests that were marked
    successful: it never decreases and counts nothing else. *)
Theorem metrics_count_counts_deliveries (catch_exceptions : bool)
        (turns : list task_name) (s : Session HighloadUser) (w : World) :
  metrics_count (self (snd (run catch_exceptions turns s)))
  = (metrics_count (self s) + delivered (events_of (run catch_exceptions turns) s))%Z
  /\ (metrics_count (self s)
      <= metrics_count (self (snd (run catch_exceptions turns s))))%Z
  /\ metrics_count (self (on_start w)) = 0%Z
  /\ metrics_count (self (snd (run catch_exceptions turns (on_start w))))
     = delivered (events_of (run catch_exceptions turns) (on_start w)).
Proof.
  assert (G : forall s0 : Session HighloadUser,
             metrics_count (self (snd (run catch_exceptions turns s0)))
             = (metrics_count (self s0)
                + delivered (events_of (run catch_exceptions turns) s0))%Z).
  { intro s0. destruct (run_full_effect catch_exceptions turns s0) as (new & L & _ & _ & _ & _ & _ & M & _).
    unfold events_of. rewrite L, skipn_length_app. exact M. }
  assert (Z0 : metrics_count (self (on_start w)) = 0%Z).
  { unfold on_start. destruct (rand_randint 1 1000 (rng w)). reflexivity. }
  split; [apply G |]. split.
  - rewrite G. pose proof (delivered_nonneg (events_of (run catch_exceptions turns) s)). lia.
  - split; [exact Z0 |]. rewrite G, Z0. reflexivity.
Qed.

(** X8. Every turn issues exactly one request: with Locust
    catching exceptions a session of [n] turns issues [n] requests and
    leaves at most [n] marks; when exceptions end the session it issues
    at most [n]; a mark never comes without its request. *)
Theorem one_request_per_turn (turns : list task_name) (s : Session HighloadUser) :
  length (filter is_request (events_of (run true turns) s)) = length turns
  /\ requests (world (snd (run true turns s))) = (length turns + requests (world s))%nat
  /\ (length (marks (events_of (run true turns) s)) <= length turns)%nat
  /\ (length (filter is_request (events_of (run false turns) s)) <= length turns)%nat
  /\ (length (marks (events_of (run false turns) s))
      <= length (filter is_request (events_of (run false turns) s)))%nat.
Proof.
  destruct (run_full_effect true turns s)
    as (new & L & Q & R & X & _ & _ & _ & _ & _ & _ & A & _).
  destruct (run_full_effect false turns s)
    as (new' & L' & _ & R' & _ & _ & _ & _ & _ & _ & _ & A' & _).
  unfold events_of. rewrite L, L', !skipn_length_app.
  specialize (X eq_refl). repeat split; lia.
Qed.

(** X9. When a session that lets exceptions through runs to
    its end, every one of its turns left exactly one mark. *)
Theorem completed_session_marks (turns : list task_name) (s : Session HighloadUser) :
  fst (run false turns s) = Ok tt ->
  length (marks (events_of (run false turns) s)) = length turns
  /\ length (filter is_request (events_of (run false turns) s)) = length turns.
Proof.
  intro E.
  destruct (run_full_effect false turns s)
    as (new & L & _ & R & _ & _ & _ & _ & _ & _ & _ & A & O).
  unfold events_of. rewrite L, skipn_length_app.
  specialize (O eq_refl E). lia.
Qed.

(** X10. A session reads the clock once for every sample it
    sends and stamps the samples, in the order it sends them, with
    those readings; when the clock does not step back between them the
    stamped times of the whole session are in non-decreasing order. *)
Theorem session_timestamps_ordered (catch_exceptions : bool)
        (turns : list task_name) (s : Session HighloadUser) :
  (forall i,
      (ticks (world s) <= i)%nat ->
      (S i < ticks (world s)
             + length (samples_sent (events_of (run catch_exceptions turns) s)))%nat ->
      dt_le (clock (world s) i) (clock (world s) (S i))) ->
  ticks (world (snd (run catch_exceptions turns s)))
  = (length (samples_sent (events_of (run catch_exceptions turns) s))
     + ticks (world s))%nat
  /\ map timestamp_of (samples_sent (events_of (run catch_exceptions turns) s))
     = map (fun d => Some (isoformat d ++ "Z"))
         (map (clock (world s))
            (seq (ticks (world s))
               (length (samples_sent (events_of (run catch_exceptions turns) s)))))
  /\ StronglySorted dt_le
       (map (clock (world s))
          (seq (ticks (world s))
             (length (samples_sent (events_of (run catch_exceptions turns) s))))).
Proof.
  destruct (run_full_effect catch_exceptions turns s)
    as (new & L & _ & _ & _ & T & _ & _ & S & _).
  unfold events_of. rewrite L, skipn_length_app. intro Hclock.
  split; [exact T |]. split.
  - rewrite S. unfold stamps. rewrite map_map. reflexivity.
  - apply readings_sorted. exact Hclock.
Qed.

(** X11. Every sample a [HighloadUser] session sends, alone or in a
    batch, is an object with exactly the fields [timestamp], [cpu],
    [rps], [device_id], in that order. *)
Theorem session_sample_fields (catch_exceptions : bool)
        (turns : list task_name) (s : Session HighloadUser) :
  Forall (fun m => keys m = ["timestamp"; "cpu"; "rps"; "device_id"])
    (samples_sent (events_of (run catch_exceptions turns) s)).
Proof.
  destruct (run_full_effect catch_exceptions turns s)
    as (new & L & _ & _ & _ & _ & _ & _ & _ & K & _).
  unfold events_of. rewrite L, skipn_length_app. exact K.
Qed.
End SessionProperties.

Lemma completed_session_marks_witness :
  length (marks (events_of (run false [SendMetric; HealthCheck; SendBatch; GetAnalysis])
                   (scripted_session [] (always (mkResponse 200 (Some healthy_body))))))
  = 4%nat
  /\ length (filter is_request
               (events_of (run false [SendMetric; HealthCheck; SendBatch; GetAnalysis])
                  (scripted_session [] (always (mkResponse 200 (Some healthy_body))))))
     = 4%nat.
Proof.
  apply (completed_session_marks [SendMetric; HealthCheck; SendBatch; GetAnalysis]
           (scripted_session [] (always (mkResponse 200 (Some healthy_body))))).
  reflexivity.
Defined.

Lemma session_timestamps_ordered_witness :
  ticks (world (snd (run true [SendMetric; SendBatch]
                       (scripted_session [] (always (mkResponse 200 None))))))
  = 11%nat
  /\ map timestamp_of
       (samples_sent (events_of (run true [SendMetric; SendBatch])
                        (scripted_session [] (always (mkResponse 200 None)))))
     = map (fun d => Some (isoformat d ++ "Z")) (map quarter_clock (seq 0 11))
  /\ StronglySorted dt_le (map quarter_clock (seq 0 11)).
Proof.
  apply (session_timestamps_ordered true [SendMetric; SendBatch]
           (scripted_session [] (always (mkResponse 200 None)))).
  intros i _ Hi. vm_compute in Hi.
  do 10 (destruct i as [| i]; [reflexivity |]). lia.
Defined.

(** ** Status codes and device names as text *)

Lemma str_inj (a b : Z) : str a = str b -> a = b.
Proof.
  intro E. unfold str in E.
  assert (P : forall z, NilZero.int_of_string (NilZero.string_of_int (Z.to_int z))
                        = Some (Z.to_int z)).
  { intro z. apply NilZero.isi; destruct z; simpl; try discriminate;
      intro F; injection F as F; exact (DecimalPos.Unsigned.to_uint_nonnil _ F). }
  pose proof (P a) as Pa. rewrite E, P in Pa. injection Pa as Pa.
  rewrite <- (DecimalZ.of_to a), <- (DecimalZ.of_to b), Pa. reflexivity.
Qed.

Lemma append_inj_l (p x y : string) : p ++ x = p ++ y -> x = y.
Proof.
  induction p as [| c p IH]; simpl; intro E; [exact E |].
  injection E as E. exact (IH E).
Qed.

Section StatusOnly.
Context `{RandomModule}.

Lemma status_mark_cases (r : Response) :
  (status_mark r = Success <-> status_code r = 200%Z)
  /\ (status_code r <> 200%Z ->
      status_mark r = Failure ("Status code: " ++ str (status_code r))).
Proof.
  unfold status_mark. destruct (Z.eqb_spec (status_code r) 200) as [E | N].
  - split; [tauto | contradiction].
  - split; [split; [discriminate | contradiction] | reflexivity].
Qed.

(** X5. [send_metric], [send_batch] and [get_analysis] each
    return normally after one request and one mark, whatever the
    service answers: the mark is a success exactly when the status code
    is 200, and otherwise a failure whose reason is "Status code: "
    followed by the code. *)
Theorem status_only_classification (s : Session HighloadUser) :
  exists sample samples mark,
    (fst (send_metric s) = Ok tt
     /\ events_of send_metric s = [Request "POST" "/metrics" (Some sample) true; mark])
    /\ (fst (send_batch s) = Ok tt
        /\ events_of send_batch s =
             [Request "POST" "/metrics/batch"
                (Some (JObj [("metrics", JArr samples)])) true; mark])
    /\ (fst (get_analysis s) = Ok tt
        /\ events_of get_analysis s = [Request "GET" "/analyze" None true; mark])
    /\ (mark = Success <-> status_code (next_response s) = 200%Z)
    /\ (status_code (next_response s) <> 200%Z ->
        mark = Failure ("Status code: " ++ str (status_code (next_response s)))).
Proof.
  destruct (events_of_send_metric s) as (sample & E1 & _).
  destruct (send_metric_run s) as (sample' & r1 & F1 & _).
  destruct (events_of_send_batch s) as (samples & E2 & _).
  destruct (send_batch_run s) as (samples' & r2 & F2 & _).
  exists sample, samples, (status_mark (next_response s)).
  rewrite E1, E2, F1, F2, events_of_get_analysis, get_analysis_run. simpl.
  destruct (status_mark_cases (next_response s)) as [A B].
  repeat split; auto; apply A.
Qed.

(** [get_analysis] and [health_check] draw no random
    number, read no clock and leave the user object as it is, also
    when [health_check] raises; each issues exactly one request. *)
Theorem read_only_tasks (s : Session HighloadUser) :
  (self (snd (get_analysis s)) = self s
   /\ rng (world (snd (get_analysis s))) = rng (world s)
   /\ ticks (world (snd (get_analysis s))) = ticks (world s)
   /\ requests (world (snd (get_analysis s))) = S (requests (world s)))
  /\ (self (snd (health_check s)) = self s
      /\ rng (world (snd (health_check s))) = rng (world s)
      /\ ticks (world (snd (health_check s))) = ticks (world s)
      /\ requests (world (snd (health_check s))) = S (requests (world s))).
Proof.
  rewrite get_analysis_run, health_check_run. simpl. repeat split.
Qed.

(** X6. The failure reason tells the status code: when a turn
    answered with a code other than 200 leaves the same marks as the
    same turn in another session, that session was answered with the
    same code. *)
Theorem failure_reason_identifies_status (t : task_name)
        (s1 s2 : Session HighloadUser) :
  status_code (next_response s1) <> 200%Z ->
  marks (events_of (perform t) s1) = marks (events_of (perform t) s2) ->
  status_code (next_response s2) = status_code (next_response s1).
Proof.
  intros N E.
  assert (K : forall r, is_mark (status_mark r) = true).
  { intro r. unfold status_mark. destruct (status_code r =? 200)%Z; reflexivity. }
  assert (J : forall r1 r2,
             status_code r1 <> 200%Z ->
             status_mark r1 = status_mark r2 -> status_code r2 = status_code r1).
  { intros r1 r2 N1 E1. unfold status_mark in E1.
    apply Z.eqb_neq in N1. rewrite N1 in E1.
    destruct (status_code r2 =? 200)%Z; [discriminate |].
    injection E1 as E1. symmetry. exact (str_inj _ _ E1). }
  destruct t; simpl perform in E.
  - destruct (events_of_send_metric s1) as (m1 & E1 & _).
    destruct (events_of_send_metric s2) as (m2 & E2 & _).
    rewrite E1, E2 in E. unfold marks in E. simpl in E. rewrite !K in E.
    injection E as E. exact (J _ _ N E).
  - destruct (events_of_send_batch s1) as (m1 & E1 & _).
    destruct (events_of_send_batch s2) as (m2 & E2 & _).
    rewrite E1, E2 in E. unfold marks in E. simpl in E. rewrite !K in E.
    injection E as E. exact (J _ _ N E).
  - rewrite !events_of_get_analysis in E. unfold marks in E. simpl in E.
    rewrite !K in E. injection E as E. exact (J _ _ N E).
  - rewrite !events_of_health_check in E. unfold marks, health_outcome in E.
    apply Z.eqb_neq in N. rewrite N in E. simpl in E.
    destruct (Z.eqb_spec (status_code (next_response s2)) 200) as [E2 | N2].
    + exfalso.
      destruct (body_json (next_response s2)) as [[| | | | | d] |]; simpl in E;
        try discriminate.
      destruct (eq_str (dict_get d "status") "healthy"); simpl in E; discriminate.
    + simpl in E. injection E as E.
      symmetry. exact (str_inj _ _ E).
Qed.

(** X12. Two sessions get the same [device_id] exactly when
    [randint(1, 1000)] gave them the same number. *)
Theorem device_id_identifies_draw (w1 w2 : World) :
  device_id (self (on_start w1)) = device_id (self (on_start w2))
  <-> fst (rand_randint 1 1000 (rng w1)) = fst (rand_randint 1 1000 (rng w2)).
Proof.
  unfold on_start.
  destruct (rand_randint 1 1000 (rng w1)) as [k1 r1].
  destruct (rand_randint 1 1000 (rng w2)) as [k2 r2]. cbn [self device_id fst].
  split.
  - intro E. apply append_inj_l in E. exact (str_inj _ _ E).
  - intros ->. reflexivity.
Qed.
End StatusOnly.

Lemma status_only_classification_witness :
  exists sample samples,
    events_of send_metric (scripted_session [] (always (mkResponse 503 None)))
    = [Request "POST" "/metrics" (Some sample) true; Failure "Status code: 503"]
    /\ events_of send_batch (scripted_session [] (always (mkResponse 503 None)))
       = [Request "POST" "/metrics/batch" (Some (JObj [("metrics", JArr samples)])) true;
          Failure "Status code: 503"]
    /\ events_of get_analysis (scripted_session [] (always (mkResponse 503 None)))
       = [Request "GET" "/analyze" None true; Failure "Status code: 503"].
Proof.
  destruct (status_only_classification
              (scripted_session [] (always (mkResponse 503 None))))
    as (sample & samples & mark & [_ E1] & [_ E2] & [_ E3] & _ & F).
  exists sample, samples.
  rewrite E1, E2, E3, (F ltac:(discriminate)). repeat split.
Defined.

Lemma failure_reason_identifies_status_witness :
  status_code (next_response (scripted_session [3] (always (mkResponse 404 (Some healthy_body)))))
  = status_code (next_response (scripted_session [] (always (mkResponse 404 None)))).
Proof.
  apply (failure_reason_identifies_status HealthCheck
           (scripted_session [] (always (mkResponse 404 None)))
           (scripted_session [3] (always (mkResponse 404 (Some healthy_body)))));
    [discriminate | reflexivity].
Defined.

Lemma device_id_identifies_draw_witness :
  device_id (self (on_start (scripted_world [41] (always (mkResponse 200 None)))))
  = device_id (self (on_start (scripted_world [1041; 5] (always (mkResponse 500 None))))).
Proof.
  apply (proj2 (device_id_identifies_draw
                  (scripted_world [41] (always (mkResponse 200 None)))
                  (scripted_world [1041; 5] (always (mkResponse 500 None))))).
  reflexivity.
Defined.

Lemma round2_monotone_witness : round2 (1 # 3) <= round2 (334 # 1000).
Proof. apply (round2_monotone (1 # 3) (334 # 1000)). discriminate. Defined.

(** ** A whole session of [HighRPSUser] *)

Section RapidSession.
Context `{RandomModule}.

Lemma rapid_sample_built (ts : string) (cpu rps : Q) :
  20 <= cpu -> cpu <= 80 -> 200 <= rps -> rps <= 800 ->
  rapid_sample (JObj [("timestamp", JStr ts); ("cpu", JNum (round2 cpu));
                      ("rps", JNum (round2 rps))]) = true.
Proof.
  intros C0 C1 R0 R1. simpl.
  rewrite !andb_true_iff, !Qle_bool_iff. repeat split.
  - apply (round2_ge 20). exact C0.
  - apply (round2_le 80). exact C1.
  - apply (round2_ge 200). exact R0.
  - apply (round2_le 800). exact R1.
Qed.

Lemma rapid_turns_effect (n : nat) :
  forall h : Session HighRPSUser,
  exists new r',
    replicate n rapid_metrics h =
      (Ok (repeat tt n),
       mkSession (self h)
         (mkWorld _ r' (clock (world h)) (n + ticks (world h))
            (service (world h)) (n + requests (world h))
            (log (world h) ++ new)%list))
    /\ length new = n
    /\ forallb fire_and_forget new = true
    /\ length (samples_sent new) = n
    /\ forallb rapid_sample (samples_sent new) = true
    /\ map timestamp_of (samples_sent new) = stamps (clock (world h)) (ticks (world h)) n.
Proof.
  induction n as [| n IH]; intro h.
  - destruct_session h. exists [], r. simpl. unfold ret. rewrite app_nil_r.
    repeat split.
  - simpl replicate. unfold bind, ret. rewrite rapid_metrics_run.
    pose proof (rand_uniform_between 20 80 (rng (world h)) ltac:(discriminate))
      as [C0 C1].
    pose proof (rand_uniform_between 200 800
                  (snd (rand_uniform 20 80 (rng (world h)))) ltac:(discriminate))
      as [R0 R1].
    pose proof (rapid_sample_built
                  (isoformat (clock (world h) (ticks (world h))) ++ "Z")
                  _ _ C0 C1 R0 R1) as B.
    match goal with
    | |- context [replicate n _ ?h1] =>
        destruct (IH h1) as (new & r2 & E & Ln & Ff & Ls & Rs & Ts)
    end.
    rewrite E. cbn [self world clock ticks service requests log rng] in *.
    eexists (_ :: new), r2. rewrite <- app_assoc, !Nat.add_succ_r.
    split; [reflexivity |].
    unfold samples_sent in *. cbn [flat_map samples_of String.eqb Ascii.eqb Bool.eqb
                                     app length forallb fire_and_forget map].
    rewrite Ln, Ff, Ls, Rs, B. unfold stamps in *. cbn [seq map timestamp_of field dict_get String.eqb Ascii.eqb Bool.eqb].
    rewrite Ts. repeat split.
Qed.
End RapidSession.

Lemma fire_and_forget_no_marks (l : list event) :
  forallb fire_and_forget l = true -> marks l = [].
Proof.
  induction l as [| e l IH]; [reflexivity |].
  simpl. intro E. apply andb_true_iff in E. destruct E as [E1 E2].
  destruct e; try discriminate. simpl. exact (IH E2).
Qed.

Section RapidSessionProperties.
Context `{RandomModule}.

(** X13. [n] turns of [rapid_metrics] always return normally and
    issue exactly [n] requests, each a POST to [/metrics] sent without
    [catch_response] and left unmarked; each sample has the three
    fields [timestamp], [cpu], [rps] with [cpu] within [20, 80] and
    [rps] within [200, 800], and the samples are stamped in order with
    the next [n] readings of the clock. *)
Theorem rapid_session (n : nat) (h : Session HighRPSUser) :
  fst (replicate n rapid_metrics h) = Ok (repeat tt n)
  /\ length (events_of (replicate n rapid_metrics) h) = n
  /\ forallb fire_and_forget (events_of (replicate n rapid_metrics) h) = true
  /\ marks (events_of (replicate n rapid_metrics) h) = []
  /\ length (samples_sent (events_of (replicate n rapid_metrics) h)) = n
  /\ forallb rapid_sample (samples_sent (events_of (replicate n rapid_metrics) h)) = true
  /\ map timestamp_of (samples_sent (events_of (replicate n rapid_metrics) h))
     = stamps (clock (world h)) (ticks (world h)) n
  /\ requests (world (snd (replicate n rapid_metrics h))) = (n + requests (world h))%nat.
Proof.
  destruct (rapid_turns_effect n h) as (new & r' & E & Ln & Ff & Ls & Rs & Ts).
  unfold events_of. rewrite E. simpl. rewrite skipn_length_app.
  repeat split; auto. apply fire_and_forget_no_marks. exact Ff.
Qed.
End RapidSessionProperties.

(** ** The event handlers *)

Lemma append_length (a b : string) :
  String.length (a ++ b) = (String.length a + String.length b)%nat.
Proof. induction a as [| c a IH]; simpl; [reflexivity | rewrite IH; reflexivity]. Qed.

Lemma str_mul_length (s : string) (n : nat) :
  String.length (str_mul s n) = (n * String.length s)%nat.
Proof.
  induction n as [| n IH]; simpl; [reflexivity |].
  rewrite append_length, IH. reflexivity.
Qed.

Lemma on_requests_silent (reports : list request_report) (out : list string) :
  on_requests reports out = (Ok tt, out).
Proof.
  revert out. induction reports as [| r reports IH]; intro out; [reflexivity |].
  simpl. unfold bind, on_request.
  destruct (Qlt_le_dec 50 (response_time r)); unfold ret; apply IH.
Qed.

(** X14. The request handler prints nothing and returns
    normally for every report, slow or not, so the handlers of a whole
    test add exactly seven lines to the output, the start banner and
    the stop banner, each framed by rules of sixty ["="]. *)
Theorem test_handlers_output {E : Type} (environment : E)
        (reports : list request_report) (out : list string) :
  test_handlers environment reports out
  = (Ok tt,
     (out ++ [str_mul "=" 60;
              "Highload Service Load Test Started";
              "Target: 1000+ RPS, Latency < 50ms";
              str_mul "=" 60;
              str_mul "=" 60;
              "Load Test Completed";
              str_mul "=" 60])%list)
  /\ String.length (str_mul "=" 60) = 60%nat.
Proof.
  split; [| apply str_mul_length].
  unfold test_handlers, on_test_start, on_test_stop, print, bind.
  rewrite on_requests_silent. rewrite <- !app_assoc. reflexivity.
Qed.

(** ** Time stamps as text *)

Lemma string_of_uint_digits (d : Decimal.uint) :
  all_digits (NilEmpty.string_of_uint d) = true.
Proof. induction d; simpl; auto. Qed.

Lemma zeros_append_digits (k : nat) (s : string) :
  all_digits s = true -> all_digits (zeros k ++ s) = true.
Proof. intro E. induction k as [| k IH]; simpl; auto. Qed.

Lemma zfill_digits (w : nat) (n : N) : all_digits (zfill w n) = true.
Proof. unfold zfill. apply zeros_append_digits, string_of_uint_digits. Qed.

Lemma uint_of_zeros (k : nat) (s : string) :
  NilEmpty.uint_of_string (zeros k ++ s)
  = option_map (Nat.iter k Decimal.D0) (NilEmpty.uint_of_string s).
Proof.
  induction k as [| k IH]; simpl.
  - destruct (NilEmpty.uint_of_string s); reflexivity.
  - rewrite IH. destruct (NilEmpty.uint_of_string s); reflexivity.
Qed.

Lemma of_uint_zeros (k : nat) (d : Decimal.uint) :
  N.of_uint (Nat.iter k Decimal.D0 d) = N.of_uint d.
Proof. induction k as [| k IH]; simpl; auto. Qed.

(** The number can be read back from a padded field. *)
Lemma field_value_zfill (w : nat) (n : N) : field_value (zfill w n) = Some n.
Proof.
  unfold field_value, zfill. rewrite uint_of_zeros, NilEmpty.usu. simpl.
  rewrite of_uint_zeros, DecimalN.Unsigned.of_to. reflexivity.
Qed.

Lemma zfill_inj (w : nat) (a b : N) : zfill w a = zfill w b -> a = b.
Proof.
  intro E. pose proof (field_value_zfill w a) as Fa.
  rewrite E, field_value_zfill in Fa. congruence.
Qed.

(** Digits followed by a separator split in one way only. *)
Lemma digits_split (a : string) :
  forall (b : string) (c c' : ascii) (r r' : string),
    all_digits a = true -> all_digits b = true ->
    is_digit c = false -> is_digit c' = false ->
    a ++ String c r = b ++ String c' r' ->
    a = b /\ c = c' /\ r = r'.
Proof.
  induction a as [| x a IH]; intros [| y b] c c' r r' Da Db Nc Nc' E; simpl in *.
  - injection E as -> ->. auto.
  - injection E as -> _. apply andb_true_iff in Db. destruct Db. congruence.
  - injection E as -> _. apply andb_true_iff in Da. destruct Da. congruence.
  - injection E as -> E. apply andb_true_iff in Da, Db.
    destruct Da as [_ Da], Db as [_ Db].
    destruct (IH b c c' r r' Da Db Nc Nc' E) as (-> & -> & ->). auto.
Qed.

Lemma append_assoc' (a b c : string) : (a ++ b) ++ c = a ++ (b ++ c).
Proof. induction a as [| x a IH]; simpl; [reflexivity | rewrite IH; reflexivity]. Qed.

Ltac split_field E Hf :=
  apply digits_split in E;
  [ destruct E as (Hf & _ & E); apply zfill_inj in Hf
  | apply zfill_digits | apply zfill_digits | reflexivity | reflexivity ].

(** X15. The text of a time stamp tells the reading it was
    made from: two readings with the same ["...Z"] text are the same
    reading, field by field, whether or not the fraction is printed. *)
Theorem timestamp_identifies_reading (d1 d2 : datetime) :
  isoformat d1 ++ "Z" = isoformat d2 ++ "Z" -> d1 = d2.
Proof.
  destruct d1 as [y1 mo1 da1 h1 mi1 s1 u1], d2 as [y2 mo2 da2 h2 mi2 s2 u2].
  unfold isoformat. cbn [year month day hour minute second microsecond].
  intro E. rewrite !append_assoc' in E. cbn [append] in E.
  split_field E Hy. split_field E Hmo. split_field E Hda.
  split_field E Hh. split_field E Hmi.
  destruct u1 as [| p1], u2 as [| p2]; cbn [append] in E.
  - split_field E Hs. congruence.
  - apply digits_split in E;
      [| apply zfill_digits | apply zfill_digits | reflexivity | reflexivity].
    destruct E as (_ & F & _). discriminate.
  - apply digits_split in E;
      [| apply zfill_digits | apply zfill_digits | reflexivity | reflexivity].
    destruct E as (_ & F & _). discriminate.
  - split_field E Hs. split_field E Hu. congruence.
Qed.

Lemma timestamp_identifies_reading_witness :
  quarter_clock 4 = mkDatetime 2024 1 1 0 0 1 0.
Proof.
  apply (timestamp_identifies_reading (quarter_clock 4) (mkDatetime 2024 1 1 0 0 1 0)).
  reflexivity.
Defined.

(** ** What the health check reads of the body *)

Section HealthBody.
Context `{RandomModule}.

(** X16. Of a 200 response [health_check] reads nothing but the
    ["status"] field of the decoded object: two responses whose bodies
    agree on that field, whatever else they hold, are classified
    alike. *)
Theorem health_check_reads_status_only (s1 s2 : Session HighloadUser)
        (d1 d2 : list (string * json)) :
  status_code (next_response s1) = 200%Z ->
  status_code (next_response s2) = 200%Z ->
  body_json (next_response s1) = Some (JObj d1) ->
  body_json (next_response s2) = Some (JObj d2) ->
  dict_get d1 "status" = dict_get d2 "status" ->
  fst (health_check s1) = fst (health_check s2)
  /\ events_of health_check s1 = events_of health_check s2.
Proof.
  intros E1 E2 B1 B2 D.
  rewrite !events_of_health_check, !health_check_run. simpl fst.
  unfold health_outcome. rewrite E1, E2, B1, B2, D. simpl. auto.
Qed.
End HealthBody.

Lemma health_check_reads_status_only_witness :
  fst (health_check
         (scripted_session [] (always (mkResponse 200 (Some degraded_body)))))
  = fst (health_check
           (scripted_session [2]
              (always (mkResponse 200
                         (Some (JObj [("uptime", JNum 12);
                                      ("status", JStr "degraded")]))))))
  /\ events_of health_check
       (scripted_session [] (always (mkResponse 200 (Some degraded_body))))
     = events_of health_check
         (scripted_session [2]
            (always (mkResponse 200
                       (Some (JObj [("uptime", JNum 12);
                                    ("status", JStr "degraded")]))))).
Proof.
  apply (health_check_reads_status_only
           (scripted_session [] (always (mkResponse 200 (Some degraded_body))))
           (scripted_session [2]
              (always (mkResponse 200
                         (Some (JObj [("uptime", JNum 12);
                                      ("status", JStr "degraded")])))))
           [("status", JStr "degraded")]
           [("uptime", JNum 12); ("status", JStr "degraded")]);
    reflexivity.
Defined.
